(** * Macro tracker: the persistence and aggregation engine

    A shallow embedding of [extensions/macro-tracker/src/db.ts] (class
    [MacroTrackerDb]), of [update-goals-tool.ts], of the range branch
    of [get-summary-tool.ts], of [delete-entry-tool.ts] and of the two
    writing handlers of [api.ts], followed by the properties of the
    specification proved (or refuted) over it and by further
    properties read off the code.

    - A JavaScript [number] is an IEEE 754 binary64 value: Rocq's
      primitive [float].  [+=] is [PrimFloat.add], [/] is
      [PrimFloat.div].
    - A JavaScript / SQLite TEXT value is a [string]; SQLite compares
      TEXT with the BINARY collation, which is [String.compare].
    - The SQLite database is a record of three tables, each a list of
      rows in insertion (rowid) order.  Statements are state
      transformers that may throw; [transaction] rolls the store back
      when its body throws.
    - A REAL column gives back the number that was bound, but for a
      negative zero, which it gives back as zero ([Sqlite.real]); a
      bound NaN is NULL and violates NOT NULL.
    - The range query is served by [idx_entries_date]: its rows arrive
      in ascending date, rowid order within a date, before ORDER BY
      sorts them by [created_at].
    - [crypto.randomUUID()] and [new Date().toISOString()] are read
      from an explicit environment. *)

From Stdlib Require Import Bool List String Ascii ZArith Lia.
From Stdlib Require Import Floats Uint63 Sorted Permutation.
Import ListNotations.

Local Open Scope string_scope.
Local Open Scope list_scope.

(** ** JavaScript numbers *)

Module Js.

Definition number := float.

Definition zero : number := 0%float.

(** [a + b] on numbers. *)
Definition add (a b : number) : number := PrimFloat.add a b.

(** [a / b] on numbers. *)
Definition div (a b : number) : number := PrimFloat.div a b.

(** [a < b] on numbers ([false] as soon as one side is NaN). *)
Definition lt (a b : number) : bool := PrimFloat.ltb a b.

(** [a === b] on numbers: [false] for NaN, [true] for [0] and [-0]. *)
Definition strictEq (a b : number) : bool := PrimFloat.eqb a b.

Definition isNaN (x : number) : bool := PrimFloat.is_nan x.

(** [Number.isFinite(x)] for a value that is already a number. *)
Definition isFinite (x : number) : bool :=
  negb (PrimFloat.is_nan x) && negb (PrimFloat.is_infinity x).

(** An array length, or any other small natural, as a number. *)
Definition ofNat (n : nat) : number :=
  PrimFloat.of_uint63 (Uint63.of_Z (Z.of_nat n)).

(** An integer of magnitude at most 2^53 as a number. *)
Definition ofZ (z : Z) : number :=
  match z with
  | Z0 => 0%float
  | Zpos _ => PrimFloat.of_uint63 (Uint63.of_Z z)
  | Zneg _ => PrimFloat.opp (PrimFloat.of_uint63 (Uint63.of_Z (Z.opp z)))
  end.

(** [Math.round(x)]: [x] itself when it is not finite or already
    integral; otherwise the integer closest to [x], the one closer to
    +infinity on a tie, keeping the sign of [x] on a zero result.
    The value of a finite float is [(-1)^s * m * 2^e]; for [e < 0]
    the rounded integer is [floor ((+-2m + 2^-e) / 2^(1-e))]. *)
Definition Math_round (x : number) : number :=
  match Prim2SF x with
  | S754_finite s m e =>
      if (0 <=? e)%Z then x
      else
        let d := Z.pow 2 (Z.opp e) in
        let n := if s then Z.opp (Z.pos m) else Z.pos m in
        let r := Z.div (2 * n + d) (2 * d) in
        if (r =? 0)%Z then (if s then (-0)%float else 0%float)
        else ofZ r
  | _ => x
  end.

(** [a ?? b]: the left operand unless it is [null] or [undefined]. *)
Definition nullish {A : Type} (a : option A) (b : A) : A :=
  match a with
  | Some v => v
  | None => b
  end.

(** [a ?? b] when [b] may itself be [undefined]. *)
Definition nullishOpt {A : Type} (a b : option A) : option A :=
  match a with
  | Some v => Some v
  | None => b
  end.

(** The values an [unknown] tool parameter can hold. *)
Inductive value : Type :=
| Undefined
| Null
| Boolean (b : bool)
| Number (n : number)
| String (s : string)
| Object.

(** [typeof v === "number" && Number.isFinite(v)]. *)
Definition isFiniteNumber (v : value) : option number :=
  match v with
  | Number n => if isFinite n then Some n else None
  | _ => None
  end.

End Js.

(** ** What a REAL column gives back

    SQLite writes a REAL whose value is integral as an integer and turns
    it into a float again when the row is read, so a negative zero that
    was bound comes back as [0]; any other number comes back as it was
    bound. *)

Module Sqlite.

Definition real (x : Js.number) : Js.number :=
  if Js.strictEq x 0%float then 0%float else x.

End Sqlite.

(** ** types.ts *)

Inductive Confidence : Type := high | medium | low.

Module ExtractedItem.
Record t : Type := mk {
  name : string;
  quantity : string;
  calories : Js.number;
  protein : Js.number;
  carbs : Js.number;
  fat : Js.number;
  fiber : Js.number;
  confidence : Confidence
}.
End ExtractedItem.

Module NutritionItem.
Record t : Type := mk {
  id : string;
  entry_id : string;
  name : string;
  quantity : string;
  calories : Js.number;
  protein : Js.number;
  carbs : Js.number;
  fat : Js.number;
  fiber : Js.number;
  confidence : Confidence
}.

(** [{ id: itemId, entry_id: entryId, ...item }] *)
Definition ofExtracted (itemId entryId : string) (item : ExtractedItem.t) : t :=
  {| id := itemId;
     entry_id := entryId;
     name := ExtractedItem.name item;
     quantity := ExtractedItem.quantity item;
     calories := ExtractedItem.calories item;
     protein := ExtractedItem.protein item;
     carbs := ExtractedItem.carbs item;
     fat := ExtractedItem.fat item;
     fiber := ExtractedItem.fiber item;
     confidence := ExtractedItem.confidence item |}.

(** The eight fields an item shares with the [ExtractedItem] it came from. *)
Definition extracted (it : t) : ExtractedItem.t :=
  {| ExtractedItem.name := name it;
     ExtractedItem.quantity := quantity it;
     ExtractedItem.calories := calories it;
     ExtractedItem.protein := protein it;
     ExtractedItem.carbs := carbs it;
     ExtractedItem.fat := fat it;
     ExtractedItem.fiber := fiber it;
     ExtractedItem.confidence := confidence it |}.

(** The row as the [items] table gives it back. *)
Definition stored (it : t) : t :=
  {| id := id it;
     entry_id := entry_id it;
     name := name it;
     quantity := quantity it;
     calories := Sqlite.real (calories it);
     protein := Sqlite.real (protein it);
     carbs := Sqlite.real (carbs it);
     fat := Sqlite.real (fat it);
     fiber := Sqlite.real (fiber it);
     confidence := confidence it |}.
End NutritionItem.

(** A row of the [entries] table: [Omit<NutritionEntry, "items">]. *)
Module EntryRow.
Record t : Type := mk {
  id : string;
  created_at : string;
  date : string;
  source : string;
  raw_input : string;
  total_calories : Js.number;
  total_protein : Js.number;
  total_carbs : Js.number;
  total_fat : Js.number;
  total_fiber : Js.number
}.

(** The row as the [entries] table gives it back. *)
Definition stored (row : t) : t :=
  {| id := id row;
     created_at := created_at row;
     date := date row;
     source := source row;
     raw_input := raw_input row;
     total_calories := Sqlite.real (total_calories row);
     total_protein := Sqlite.real (total_protein row);
     total_carbs := Sqlite.real (total_carbs row);
     total_fat := Sqlite.real (total_fat row);
     total_fiber := Sqlite.real (total_fiber row) |}.
End EntryRow.

Module NutritionEntry.
Record t : Type := mk {
  id : string;
  created_at : string;
  date : string;
  source : string;
  raw_input : string;
  total_calories : Js.number;
  total_protein : Js.number;
  total_carbs : Js.number;
  total_fat : Js.number;
  total_fiber : Js.number;
  items : list NutritionItem.t
}.

(** [{ ...row, items }] *)
Definition ofRow (row : EntryRow.t) (its : list NutritionItem.t) : t :=
  {| id := EntryRow.id row;
     created_at := EntryRow.created_at row;
     date := EntryRow.date row;
     source := EntryRow.source row;
     raw_input := EntryRow.raw_input row;
     total_calories := EntryRow.total_calories row;
     total_protein := EntryRow.total_protein row;
     total_carbs := EntryRow.total_carbs row;
     total_fat := EntryRow.total_fat row;
     total_fiber := EntryRow.total_fiber row;
     items := its |}.

(** The entry as getEntry reads it once its rows have been written. *)
Definition stored (e : t) : t :=
  {| id := id e;
     created_at := created_at e;
     date := date e;
     source := source e;
     raw_input := raw_input e;
     total_calories := Sqlite.real (total_calories e);
     total_protein := Sqlite.real (total_protein e);
     total_carbs := Sqlite.real (total_carbs e);
     total_fat := Sqlite.real (total_fat e);
     total_fiber := Sqlite.real (total_fiber e);
     items := map NutritionItem.stored (items e) |}.
End NutritionEntry.

Module Goals.
Record t : Type := mk {
  id : string;
  calories : Js.number;
  protein : Js.number;
  carbs : Js.number;
  fat : Js.number;
  fiber : Js.number;
  updated_at : string
}.

(** The row as the [goals] table gives it back. *)
Definition stored (g : t) : t :=
  {| id := id g;
     calories := Sqlite.real (calories g);
     protein := Sqlite.real (protein g);
     carbs := Sqlite.real (carbs g);
     fat := Sqlite.real (fat g);
     fiber := Sqlite.real (fiber g);
     updated_at := updated_at g |}.
End Goals.

(** [Partial<Omit<Goals, "id" | "updated_at">>]: a missing field is [None]. *)
Module GoalsPartial.
Record t : Type := mk {
  calories : option Js.number;
  protein : option Js.number;
  carbs : option Js.number;
  fat : option Js.number;
  fiber : option Js.number
}.

Definition empty : t := mk None None None None None.
End GoalsPartial.

Module DailySummary.
Record t : Type := mk {
  date : string;
  total_calories : Js.number;
  total_protein : Js.number;
  total_carbs : Js.number;
  total_fat : Js.number;
  total_fiber : Js.number;
  entry_count : nat;
  entries : list NutritionEntry.t;
  goals : option Goals.t
}.
End DailySummary.

(** ** The store: the three tables of SCHEMA_SQL *)

Module Store.
Record t : Type := mk {
  entries : list EntryRow.t;
  items : list NutritionItem.t;
  goals : list Goals.t
}.

(** A freshly created database file. *)
Definition empty : t := mk [] [] [].
End Store.

(** What a statement or a method can throw. *)
Inductive SqliteCode : Type :=
| SQLITE_CONSTRAINT_NOTNULL
| SQLITE_CONSTRAINT_PRIMARYKEY
| SQLITE_CONSTRAINT_FOREIGNKEY.

Inductive Exception : Type :=
| SqliteError (code : SqliteCode)
| Error (message : string).

Inductive Completion (A : Type) : Type :=
| Return (a : A)
| Throw (e : Exception).
Arguments Return {A} a.
Arguments Throw {A} e.

(** A method of the class: it runs on the store and leaves a store
    behind, also when it throws. *)
Definition M (A : Type) : Type := Store.t -> Completion A * Store.t.

Definition ret {A : Type} (a : A) : M A := fun s => (Return a, s).

Definition throw {A : Type} (e : Exception) : M A := fun s => (Throw e, s).

Definition bind {A B : Type} (m : M A) (k : A -> M B) : M B :=
  fun s =>
    match m s with
    | (Return a, s') => k a s'
    | (Throw e, s') => (Throw e, s')
    end.

Declare Scope db_scope.
Delimit Scope db_scope with db.
Notation "x <- m ;; k" := (bind m (fun x => k))
  (at level 100, m at next level, right associativity) : db_scope.
Notation "m ;;; k" := (bind m (fun _ => k))
  (at level 100, right associativity) : db_scope.

(** The clock and the UUID generator, as one call of a method sees them:
    [randomUUID k] is what the [k]-th call of [crypto.randomUUID()]
    returns (counting from 0), [now] is [new Date().toISOString()]. *)
Module Env.
Record t : Type := mk {
  randomUUID : nat -> string;
  now : string
}.
End Env.

(** ** Stable sorting

    [ORDER BY] and [Array.prototype.toSorted] are both stable: elements
    that compare equal keep their relative order.  For a comparison that
    is a total preorder every stable sort returns the same list; this is
    the insertion sort. *)

Module Sorting.
Section SortBy.
Context {A : Type} (le : A -> A -> bool).

(** [x] goes in front of the first element it is not greater than. *)
Fixpoint insert (x : A) (sorted : list A) : list A :=
  match sorted with
  | [] => [x]
  | y :: rest => if le x y then x :: y :: rest else y :: insert x rest
  end.

Definition sortBy (l : list A) : list A := fold_right insert [] l.
End SortBy.
End Sorting.

(** ** db.ts: class MacroTrackerDb *)

Module Db.

Local Open Scope db_scope.

(** *** Prepared statements

    better-sqlite3 binds a JavaScript number with [sqlite3_bind_double],
    and SQLite turns a NaN bound that way into NULL; every REAL column
    of the schema is NOT NULL.  A statement that violates a constraint
    throws and changes nothing.  A row that is written is kept as the
    table gives it back ([stored]). *)

Definition anyNaN (xs : list Js.number) : bool := existsb Js.isNaN xs.

(** [INSERT INTO entries (...) VALUES (?, ..., ?)] *)
Definition insertEntryStmt_run (row : EntryRow.t) : M unit :=
  fun s =>
    if anyNaN [EntryRow.total_calories row; EntryRow.total_protein row;
               EntryRow.total_carbs row; EntryRow.total_fat row;
               EntryRow.total_fiber row]
    then (Throw (SqliteError SQLITE_CONSTRAINT_NOTNULL), s)
    else if existsb (fun e => EntryRow.id e =? EntryRow.id row) (Store.entries s)
    then (Throw (SqliteError SQLITE_CONSTRAINT_PRIMARYKEY), s)
    else (Return tt,
          Store.mk (Store.entries s ++ [EntryRow.stored row]) (Store.items s)
                   (Store.goals s)).

(** [INSERT INTO items (...) VALUES (?, ..., ?)], with
    [entry_id REFERENCES entries(id)] enforced ([foreign_keys = ON]). *)
Definition insertItemStmt_run (row : NutritionItem.t) : M unit :=
  fun s =>
    if anyNaN [NutritionItem.calories row; NutritionItem.protein row;
               NutritionItem.carbs row; NutritionItem.fat row;
               NutritionItem.fiber row]
    then (Throw (SqliteError SQLITE_CONSTRAINT_NOTNULL), s)
    else if existsb (fun i => NutritionItem.id i =? NutritionItem.id row) (Store.items s)
    then (Throw (SqliteError SQLITE_CONSTRAINT_PRIMARYKEY), s)
    else if negb (existsb (fun e => EntryRow.id e =? NutritionItem.entry_id row)
                          (Store.entries s))
    then (Throw (SqliteError SQLITE_CONSTRAINT_FOREIGNKEY), s)
    else (Return tt,
          Store.mk (Store.entries s) (Store.items s ++ [NutritionItem.stored row])
                   (Store.goals s)).

(** [this.db.transaction(fn)()]: BEGIN, run [fn], COMMIT; when [fn]
    throws, ROLLBACK to the store at BEGIN and rethrow. *)
Definition transaction {A : Type} (fn : M A) : M A :=
  fun s =>
    match fn s with
    | (Return a, s') => (Return a, s')
    | (Throw e, _) => (Throw e, s)
    end.

(** *** insertEntry *)

Module InsertParams.
Record t : Type := mk {
  date : string;
  source : string;
  rawInput : string;
  items : list ExtractedItem.t
}.
End InsertParams.

(** [let total = 0; for (const item of items) total += item.f;] *)
Definition total (f : ExtractedItem.t -> Js.number) (items : list ExtractedItem.t)
  : Js.number :=
  fold_left (fun acc item => Js.add acc (f item)) items Js.zero.

(** The [for] loop inside the transaction.  [k] counts the calls of
    [crypto.randomUUID()] made so far, [nutritionItems] is the array
    being pushed to. *)
Fixpoint insertItems (uuid : nat -> string) (entryId : string) (k : nat)
    (items : list ExtractedItem.t) (nutritionItems : list NutritionItem.t)
  : M (list NutritionItem.t) :=
  match items with
  | [] => ret nutritionItems
  | item :: rest =>
      let itemId := uuid k in
      let row := NutritionItem.ofExtracted itemId entryId item in
      insertItemStmt_run row ;;;
      insertItems uuid entryId (S k) rest (nutritionItems ++ [row])
  end.

Definition insertEntry (env : Env.t) (params : InsertParams.t) : M NutritionEntry.t :=
  let entryId := Env.randomUUID env 0 in
  let now := Env.now env in
  let items := InsertParams.items params in
  let totalCalories := total ExtractedItem.calories items in
  let totalProtein := total ExtractedItem.protein items in
  let totalCarbs := total ExtractedItem.carbs items in
  let totalFat := total ExtractedItem.fat items in
  let totalFiber := total ExtractedItem.fiber items in
  let row :=
    EntryRow.mk entryId now (InsertParams.date params) (InsertParams.source params)
      (InsertParams.rawInput params)
      totalCalories totalProtein totalCarbs totalFat totalFiber in
  nutritionItems <-
    transaction
      (insertEntryStmt_run row ;;;
       insertItems (Env.randomUUID env) entryId 1 items []) ;;
  ret (NutritionEntry.ofRow row nutritionItems).

(** *** Reads *)

(** [SELECT * FROM items WHERE entry_id = ?], rows in rowid order. *)
Definition itemsOf (s : Store.t) (id : string) : list NutritionItem.t :=
  filter (fun i => NutritionItem.entry_id i =? id) (Store.items s).

Definition getEntry (s : Store.t) (id : string) : option NutritionEntry.t :=
  match find (fun e => EntryRow.id e =? id) (Store.entries s) with
  | None => None
  | Some row => Some (NutritionEntry.ofRow row (itemsOf s id))
  end.

(** [date >= from AND date <= to] under the BINARY collation. *)
Definition inRange (from to : string) (row : EntryRow.t) : bool :=
  String.leb from (EntryRow.date row) && String.leb (EntryRow.date row) to.

(** The scan of [idx_entries_date] that serves the WHERE clause: the
    rows of the range in ascending [date], rows of one date in rowid
    order. *)
Definition scanByDate (from to : string) (rows : list EntryRow.t) : list EntryRow.t :=
  Sorting.sortBy (fun a b => String.leb (EntryRow.date a) (EntryRow.date b))
    (filter (inRange from to) rows).

(** [ORDER BY created_at ASC], TEXT compared under the BINARY
    collation; rows with equal keys keep the order of the scan. *)
Definition orderByCreatedAt (rows : list EntryRow.t) : list EntryRow.t :=
  Sorting.sortBy
    (fun a b => String.leb (EntryRow.created_at a) (EntryRow.created_at b)) rows.

Definition getEntriesByDateRange (s : Store.t) (from to : string)
  : list NutritionEntry.t :=
  let rows := orderByCreatedAt (scanByDate from to (Store.entries s)) in
  map (fun row => NutritionEntry.ofRow row (itemsOf s (EntryRow.id row))) rows.

(** [SELECT * FROM goals WHERE id = 'default'] *)
Definition getGoals (s : Store.t) : option Goals.t :=
  find (fun g => Goals.id g =? "default") (Store.goals s).

(** [let total = 0; for (const entry of entries) total += entry.f;] *)
Definition totalOf (f : NutritionEntry.t -> Js.number) (entries : list NutritionEntry.t)
  : Js.number :=
  fold_left (fun acc entry => Js.add acc (f entry)) entries Js.zero.

Definition getDailySummary (s : Store.t) (date : string) : DailySummary.t :=
  let entries := getEntriesByDateRange s date date in
  let goals := getGoals s in
  {| DailySummary.date := date;
     DailySummary.total_calories := totalOf NutritionEntry.total_calories entries;
     DailySummary.total_protein := totalOf NutritionEntry.total_protein entries;
     DailySummary.total_carbs := totalOf NutritionEntry.total_carbs entries;
     DailySummary.total_fat := totalOf NutritionEntry.total_fat entries;
     DailySummary.total_fiber := totalOf NutritionEntry.total_fiber entries;
     DailySummary.entry_count := List.length entries;
     DailySummary.entries := entries;
     DailySummary.goals := goals |}.

(** *** deleteEntry

    [DELETE FROM entries WHERE id = ?]; every item row whose
    [entry_id] names a deleted row goes with it (ON DELETE CASCADE).
    [result.changes] counts the deleted [entries] rows. *)
Definition deleteEntry (id : string) : M bool :=
  fun s =>
    let deleted := filter (fun e => EntryRow.id e =? id) (Store.entries s) in
    let owned (i : NutritionItem.t) :=
      existsb (fun e => EntryRow.id e =? NutritionItem.entry_id i) deleted in
    let changes := List.length deleted in
    (Return (0 <? changes)%nat,
     Store.mk (filter (fun e => negb (EntryRow.id e =? id)) (Store.entries s))
              (filter (fun i => negb (owned i)) (Store.items s))
              (Store.goals s)).

(** *** Goals *)

(** [INSERT INTO goals ... ON CONFLICT(id) DO UPDATE SET ...] *)
Definition upsertGoalsStmt_run (g : Goals.t) : M unit :=
  fun s =>
    if anyNaN [Goals.calories g; Goals.protein g; Goals.carbs g;
               Goals.fat g; Goals.fiber g]
    then (Throw (SqliteError SQLITE_CONSTRAINT_NOTNULL), s)
    else if existsb (fun r => Goals.id r =? Goals.id g) (Store.goals s)
    then (Return tt,
          Store.mk (Store.entries s) (Store.items s)
            (map (fun r => if Goals.id r =? Goals.id g then Goals.stored g else r)
                 (Store.goals s)))
    else (Return tt,
          Store.mk (Store.entries s) (Store.items s) (Store.goals s ++ [Goals.stored g])).

Definition updateGoals (env : Env.t) (params : GoalsPartial.t) : M Goals.t :=
  fun s =>
    let now := Env.now env in
    let existing := getGoals s in
    let goals :=
      {| Goals.id := "default";
         Goals.calories :=
           Js.nullish (Js.nullishOpt (GoalsPartial.calories params)
                                    (option_map Goals.calories existing)) 2000%float;
         Goals.protein :=
           Js.nullish (Js.nullishOpt (GoalsPartial.protein params)
                                    (option_map Goals.protein existing)) 150%float;
         Goals.carbs :=
           Js.nullish (Js.nullishOpt (GoalsPartial.carbs params)
                                    (option_map Goals.carbs existing)) 250%float;
         Goals.fat :=
           Js.nullish (Js.nullishOpt (GoalsPartial.fat params)
                                    (option_map Goals.fat existing)) 65%float;
         Goals.fiber :=
           Js.nullish (Js.nullishOpt (GoalsPartial.fiber params)
                                    (option_map Goals.fiber existing)) 30%float;
         Goals.updated_at := now |} in
    (upsertGoalsStmt_run goals ;;; ret goals) s.

End Db.

(** ** update-goals-tool.ts: createUpdateGoalsTool().execute *)

Module UpdateGoalsTool.

(** [Record<string, unknown>]: reading a property that is not there
    gives [undefined]. *)
Definition Params : Type := string -> Js.value.

(** [Record<string, number>]: the own properties in insertion order. *)
Definition Updates : Type := list (string * Js.number).

(** [updates[key]] *)
Definition get (updates : Updates) (key : string) : option Js.number :=
  option_map snd (find (fun kv => fst kv =? key) updates).

(** [updates[key] = val] *)
Definition set (updates : Updates) (key : string) (val : Js.number) : Updates :=
  if existsb (fun kv => fst kv =? key) updates
  then map (fun kv => if fst kv =? key then (key, val) else kv) updates
  else updates ++ [(key, val)].

Definition keys : list string := ["calories"; "protein"; "carbs"; "fat"; "fiber"].

(** The [for (const key of [...])] loop. *)
Fixpoint collect (params : Params) (ks : list string) (updates : Updates)
  : Completion Updates :=
  match ks with
  | [] => Return updates
  | key :: rest =>
      match Js.isFiniteNumber (params key) with
      | Some val =>
          if Js.lt val Js.zero
          then Throw (Error (key ++ " must be non-negative"))
          else collect params rest (set updates key val)
      | None => collect params rest updates
      end
  end.

(** The object [updates] read as the argument of [db.updateGoals]. *)
Definition asPartial (updates : Updates) : GoalsPartial.t :=
  {| GoalsPartial.calories := get updates "calories";
     GoalsPartial.protein := get updates "protein";
     GoalsPartial.carbs := get updates "carbs";
     GoalsPartial.fat := get updates "fat";
     GoalsPartial.fiber := get updates "fiber" |}.

(** [execute], returning [details.goals]. *)
Definition execute (env : Env.t) (params : Params) : M Goals.t :=
  fun s =>
    match collect params keys [] with
    | Throw e => (Throw e, s)
    | Return updates =>
        if (List.length updates =? 0)%nat
        then (Throw (Error "At least one goal value must be provided"), s)
        else Db.updateGoals env (asPartial updates) s
    end.

End UpdateGoalsTool.

(** ** get-summary-tool.ts: createGetSummaryTool().execute, range branch *)

Module GetSummaryTool.

Module Totals.
Record t : Type := mk {
  calories : Js.number;
  protein : Js.number;
  carbs : Js.number;
  fat : Js.number;
  fiber : Js.number;
  count : nat
}.

(** [{ calories: 0, protein: 0, carbs: 0, fat: 0, fiber: 0, count: 0 }] *)
Definition zero : t := mk Js.zero Js.zero Js.zero Js.zero Js.zero 0.

(** [d.calories += entry.total_calories; ...; d.count += 1] *)
Definition add (d : t) (entry : NutritionEntry.t) : t :=
  {| calories := Js.add (calories d) (NutritionEntry.total_calories entry);
     protein := Js.add (protein d) (NutritionEntry.total_protein entry);
     carbs := Js.add (carbs d) (NutritionEntry.total_carbs entry);
     fat := Js.add (fat d) (NutritionEntry.total_fat entry);
     fiber := Js.add (fiber d) (NutritionEntry.total_fiber entry);
     count := S (count d) |}.
End Totals.

(** [{ date, ...totals }] *)
Module Day.
Record t : Type := mk {
  date : string;
  calories : Js.number;
  protein : Js.number;
  carbs : Js.number;
  fat : Js.number;
  fiber : Js.number;
  count : nat
}.

Definition ofEntry (kv : string * Totals.t) : t :=
  {| date := fst kv;
     calories := Totals.calories (snd kv);
     protein := Totals.protein (snd kv);
     carbs := Totals.carbs (snd kv);
     fat := Totals.fat (snd kv);
     fiber := Totals.fiber (snd kv);
     count := Totals.count (snd kv) |}.
End Day.

Module Macros.
Record t : Type := mk {
  calories : Js.number;
  protein : Js.number;
  carbs : Js.number;
  fat : Js.number;
  fiber : Js.number
}.
End Macros.

Module Details.
Record t : Type := mk {
  from : string;
  to : string;
  days : list Day.t;
  totals : Macros.t;
  averages : Macros.t;
  goals : option Goals.t
}.
End Details.

(** The object [byDate]: its own properties, in insertion order. *)
Definition ByDate : Type := list (string * Totals.t).

Definition hasOwn (byDate : ByDate) (key : string) : bool :=
  existsb (fun kv => fst kv =? key) byDate.

(** [byDate] is an object literal, so [byDate[key]] also finds what
    [Object.prototype] defines; each of these is a function or an
    object, hence truthy. *)
Definition objectPrototype : list string :=
  ["constructor"; "__defineGetter__"; "__defineSetter__"; "hasOwnProperty";
   "__lookupGetter__"; "__lookupSetter__"; "isPrototypeOf";
   "propertyIsEnumerable"; "toString"; "valueOf"; "__proto__";
   "toLocaleString"].

Definition inherited (key : string) : bool :=
  existsb (fun k => k =? key) objectPrototype.

(** One turn of [for (const entry of entries)].  When [entry.date]
    names a property of [Object.prototype], [!byDate[entry.date]] is
    false and the [+=] land on that inherited object: [byDate] gets no
    property. *)
Definition accumulate (byDate : ByDate) (entry : NutritionEntry.t) : ByDate :=
  let key := NutritionEntry.date entry in
  if hasOwn byDate key
  then map (fun kv => if fst kv =? key then (fst kv, Totals.add (snd kv) entry) else kv)
           byDate
  else if inherited key then byDate
  else byDate ++ [(key, Totals.add Totals.zero entry)].

(** A property key that is an array index: the canonical decimal
    spelling of an integer below 2^32 - 1. *)
Definition digit (c : ascii) : option N :=
  let n := N_of_ascii c in
  if (48 <=? n)%N && (n <=? 57)%N then Some (n - 48)%N else None.

Fixpoint digits (s : string) (acc : N) : option N :=
  match s with
  | EmptyString => Some acc
  | String c rest =>
      match digit c with
      | Some d => digits rest (10 * acc + d)%N
      | None => None
      end
  end.

Definition arrayIndex (key : string) : option N :=
  match key with
  | EmptyString => None
  | String c rest =>
      if (c =? "0")%char
      then (match rest with EmptyString => Some 0%N | _ => None end)
      else match digits key 0 with
           | Some n => if (n <? 4294967295)%N then Some n else None
           | None => None
           end
  end.

Definition isArrayIndex (kv : string * Totals.t) : bool :=
  match arrayIndex (fst kv) with Some _ => true | None => false end.

Definition indexOf (kv : string * Totals.t) : N :=
  match arrayIndex (fst kv) with Some n => n | None => 0%N end.

(** [Object.entries(byDate)]: the array-index keys in ascending
    numeric order, then the other keys in insertion order. *)
Definition Object_entries (byDate : ByDate) : list (string * Totals.t) :=
  Sorting.sortBy (fun x y => (indexOf x <=? indexOf y)%N) (filter isArrayIndex byDate)
  ++ filter (fun kv => negb (isArrayIndex kv)) byDate.

(** [let total = 0; for (const day of days) total += day.f;] *)
Definition totalOf (f : Day.t -> Js.number) (days : list Day.t) : Js.number :=
  fold_left (fun acc day => Js.add acc (f day)) days Js.zero.

(** [days.length || 1] *)
Definition numDays (days : list Day.t) : nat :=
  match List.length days with
  | 0 => 1
  | n => n
  end.

Section Range.

(** [a.localeCompare(b)]: negative, zero or positive; the collation
    is the host's. *)
Variable localeCompare : string -> string -> Z.

(** [Object.entries(byDate).toSorted(([a], [b]) => a.localeCompare(b))] *)
Definition sortedEntries (byDate : ByDate) : list (string * Totals.t) :=
  Sorting.sortBy (fun x y => (localeCompare (fst x) (fst y) <=? 0)%Z)
    (Object_entries byDate).

(** The body of [if (from && to) { ... }], returning [details]. *)
Definition rangeSummary (s : Store.t) (from to : string) : Details.t :=
  let entries := Db.getEntriesByDateRange s from to in
  let goals := Db.getGoals s in
  let byDate := fold_left accumulate entries [] in
  let days := map Day.ofEntry (sortedEntries byDate) in
  let totalCalories := totalOf Day.calories days in
  let totalProtein := totalOf Day.protein days in
  let totalCarbs := totalOf Day.carbs days in
  let totalFat := totalOf Day.fat days in
  let totalFiber := totalOf Day.fiber days in
  let numDays := Js.ofNat (numDays days) in
  {| Details.from := from;
     Details.to := to;
     Details.days := days;
     Details.totals :=
       Macros.mk totalCalories totalProtein totalCarbs totalFat totalFiber;
     Details.averages :=
       Macros.mk (Js.Math_round (Js.div totalCalories numDays))
                 (Js.Math_round (Js.div totalProtein numDays))
                 (Js.Math_round (Js.div totalCarbs numDays))
                 (Js.Math_round (Js.div totalFat numDays))
                 (Js.Math_round (Js.div totalFiber numDays));
     Details.goals := goals |}.

End Range.

End GetSummaryTool.

(** ** delete-entry-tool.ts: createDeleteEntryTool().execute *)

Module DeleteEntryTool.

Definition Params : Type := string -> Js.value.

(** [details]: [{ deleted: true, entry }] *)
Module Details.
Record t : Type := mk {
  deleted : bool;
  entry : NutritionEntry.t
}.
End Details.

Section Execute.

(** [String.prototype.trim] *)
Variable trim : string -> string.

(** [typeof params.entry_id === "string" ? params.entry_id.trim() : ""] *)
Definition entryIdOf (params : Params) : string :=
  match params "entry_id" with
  | Js.String v => trim v
  | _ => ""
  end.

Definition execute (params : Params) : M Details.t :=
  fun s =>
    let entryId := entryIdOf params in
    if entryId =? ""
    then (Throw (Error "entry_id required"), s)
    else
      match Db.getEntry s entryId with
      | None => (Throw (Error ("Entry not found: " ++ entryId)), s)
      | Some entry =>
          bind (Db.deleteEntry entryId)
               (fun deleted =>
                  if negb deleted
                  then throw (Error ("Failed to delete entry: " ++ entryId))
                  else ret (Details.mk true entry)) s
      end.

End Execute.

End DeleteEntryTool.

(** ** api.ts: the HTTP handlers

    The two writing handlers, modelled from the point where the
    request has been read: the last segment of the path, the result of
    [JSON.parse] on the body.  What a handler writes with
    [jsonResponse] or [errorResponse] is its result. *)

Module Api.

(** The JSON document written to the response. *)
Inductive Body : Type :=
| ErrorBody (message : string)
| ThrownBody (e : Exception)
| TypeErrorBody
| GoalsBody (goals : Goals.t)
| DeletedBody (entry : NutritionEntry.t).

Module Response.
Record t : Type := mk {
  statusCode : nat;
  body : Body
}.
End Response.

(** [errorResponse(res, status, message)] *)
Definition errorResponse (status : nat) (message : string) : Response.t :=
  Response.mk status (ErrorBody message).

(** What [JSON.parse(body)] gave: a syntax error, [null], a number,
    string or boolean, or an object (arrays included) with its
    properties. *)
Inductive Json : Type :=
| JsonInvalid
| JsonNull
| JsonPrimitive
| JsonObject (properties : string -> Js.value).

(** The loop of handleUpdateGoals: every finite number is kept. *)
Fixpoint collect (parsed : string -> Js.value) (ks : list string)
    (updates : UpdateGoalsTool.Updates) : UpdateGoalsTool.Updates :=
  match ks with
  | [] => updates
  | key :: rest =>
      match Js.isFiniteNumber (parsed key) with
      | Some val => collect parsed rest (UpdateGoalsTool.set updates key val)
      | None => collect parsed rest updates
      end
  end.

Definition handleUpdateGoals (env : Env.t) (parsed : Json) : M Response.t :=
  fun s =>
    match parsed with
    | JsonInvalid => (Return (errorResponse 400 "Invalid JSON body"), s)
    | JsonNull => (Return (Response.mk 500 TypeErrorBody), s)
    | JsonPrimitive =>
        (Return (errorResponse 400 "At least one goal value must be provided"), s)
    | JsonObject properties =>
        let updates := collect properties UpdateGoalsTool.keys [] in
        if (List.length updates =? 0)%nat
        then (Return (errorResponse 400 "At least one goal value must be provided"), s)
        else
          match Db.updateGoals env (UpdateGoalsTool.asPartial updates) s with
          | (Return goals, s') => (Return (Response.mk 200 (GoalsBody goals)), s')
          | (Throw e, s') => (Return (Response.mk 500 (ThrownBody e)), s')
          end
    end.

(** [entryId] is the last segment of the path. *)
Definition handleDeleteEntry (entryId : string) : M Response.t :=
  fun s =>
    if entryId =? ""
    then (Return (errorResponse 400 "Entry ID required"), s)
    else
      match Db.getEntry s entryId with
      | None => (Return (errorResponse 404 "Entry not found"), s)
      | Some entry =>
          match Db.deleteEntry entryId s with
          | (Return _, s') => (Return (Response.mk 200 (DeletedBody entry)), s')
          | (Throw e, s') => (Return (Response.mk 500 (ThrownBody e)), s')
          end
      end.

End Api.

(** ** The vocabulary of the specification *)

Module Spec.

(** The sum of a list of numbers by plain floating addition, left to
    right from 0, nothing rounded afterwards. *)
Definition sum (xs : list Js.number) : Js.number := fold_left Js.add xs Js.zero.

(** [read] is what a REAL column gives back for [written]; the two are
    equal as numbers ([===]) and differ at most by the sign of zero. *)
Definition readBack (written read : Js.number) : Prop :=
  read = Sqlite.real written /\ Js.strictEq written read = true.


(** The fixed baseline of the goals. *)
Definition baseline (now : string) : Goals.t :=
  Goals.mk "default" 2000%float 150%float 250%float 65%float 30%float now.

(** One field of a goals update: the supplied value, else the stored
    one, else the baseline. *)
Definition merged (supplied : option Js.number) (stored : option Goals.t)
    (field : Goals.t -> Js.number) (now : string) : Js.number :=
  match supplied, stored with
  | Some v, _ => v
  | None, Some g => field g
  | None, None => field (baseline now)
  end.

(** The whole merged record: every field merged, the key fixed, the
    time stamp new. *)
Definition mergedGoals (env : Env.t) (params : GoalsPartial.t) (s : Store.t) : Goals.t :=
  let stored := Db.getGoals s in
  let now := Env.now env in
  {| Goals.id := "default";
     Goals.calories := merged (GoalsPartial.calories params) stored Goals.calories now;
     Goals.protein := merged (GoalsPartial.protein params) stored Goals.protein now;
     Goals.carbs := merged (GoalsPartial.carbs params) stored Goals.carbs now;
     Goals.fat := merged (GoalsPartial.fat params) stored Goals.fat now;
     Goals.fiber := merged (GoalsPartial.fiber params) stored Goals.fiber now;
     Goals.updated_at := now |}.

(** What update_nutrition_goals keeps of one parameter: a finite
    number, or nothing. *)
Definition supplied (params : UpdateGoalsTool.Params) (key : string)
  : option Js.number :=
  Js.isFiniteNumber (params key).

End Spec.

(** ** What SCHEMA_SQL guarantees of every store *)

Module Schema.

Definition entryReals (e : EntryRow.t) : list Js.number :=
  [EntryRow.total_calories e; EntryRow.total_protein e; EntryRow.total_carbs e;
   EntryRow.total_fat e; EntryRow.total_fiber e].

Definition itemReals (i : NutritionItem.t) : list Js.number :=
  [NutritionItem.calories i; NutritionItem.protein i; NutritionItem.carbs i;
   NutritionItem.fat i; NutritionItem.fiber i].

Definition goalsReals (g : Goals.t) : list Js.number :=
  [Goals.calories g; Goals.protein g; Goals.carbs g; Goals.fat g; Goals.fiber g].

(** PRIMARY KEY on the three [id] columns, [items.entry_id REFERENCES
    entries(id)], and REAL NOT NULL (no NaN) on every macro column. *)
Record wf (s : Store.t) : Prop := {
  entries_pk : NoDup (map EntryRow.id (Store.entries s));
  items_pk : NoDup (map NutritionItem.id (Store.items s));
  items_fk : forall i, In i (Store.items s) ->
               In (NutritionItem.entry_id i) (map EntryRow.id (Store.entries s));
  goals_pk : NoDup (map Goals.id (Store.goals s));
  entries_real : forall e, In e (Store.entries s) -> Db.anyNaN (entryReals e) = false;
  items_real : forall i, In i (Store.items s) -> Db.anyNaN (itemReals i) = false;
  goals_real : forall g, In g (Store.goals s) -> Db.anyNaN (goalsReals g) = false
}.

End Schema.

(** ** Names for what insertEntry writes *)

Module Inserted.

(** The row [insertEntryStmt.run(...)] is called with. *)
Definition entryRow (env : Env.t) (params : Db.InsertParams.t) : EntryRow.t :=
  let items := Db.InsertParams.items params in
  EntryRow.mk (Env.randomUUID env 0) (Env.now env)
    (Db.InsertParams.date params) (Db.InsertParams.source params)
    (Db.InsertParams.rawInput params)
    (Db.total ExtractedItem.calories items) (Db.total ExtractedItem.protein items)
    (Db.total ExtractedItem.carbs items) (Db.total ExtractedItem.fat items)
    (Db.total ExtractedItem.fiber items).

(** The rows the loop hands to [insertItemStmt.run(...)], the [k]-th
    UUID going to the first of them. *)
Fixpoint itemRows (uuid : nat -> string) (entryId : string) (k : nat)
    (items : list ExtractedItem.t) : list NutritionItem.t :=
  match items with
  | [] => []
  | item :: rest =>
      NutritionItem.ofExtracted (uuid k) entryId item :: itemRows uuid entryId (S k) rest
  end.

(** The UUIDs one call of insertEntry draws: the entry's, then one per item. *)
Definition uuids (env : Env.t) (params : Db.InsertParams.t) : list string :=
  map (Env.randomUUID env) (seq 0 (S (List.length (Db.InsertParams.items params)))).

End Inserted.

(** ** Sample data: the repository's own test fixtures *)

Module Sample.

Definition digitOf (k : nat) : string := String (ascii_of_nat (48 + k)) EmptyString.

(** A generator whose [k]-th UUID is [prefix ++ k]. *)
Definition env (prefix now : string) : Env.t :=
  Env.mk (fun k => (prefix ++ digitOf k)%string) now.

(** A generator that hands out the same UUID to every item. *)
Definition stuck (now : string) : Env.t :=
  Env.mk (fun k => match k with 0 => "entry" | _ => "item" end) now.

Definition eggs : ExtractedItem.t :=
  ExtractedItem.mk "Eggs" "2 large" 140%float 12%float 1%float 10%float 0%float high.

Definition toast : ExtractedItem.t :=
  ExtractedItem.mk "Toast" "1 slice" 80%float 3%float 15%float 1%float 1%float medium.

Definition rice : ExtractedItem.t :=
  ExtractedItem.mk "Rice" "200g" 260%float 5%float 58%float 0.5%float
    0x1.3333333333333p-1%float medium.

Definition pasta : ExtractedItem.t :=
  ExtractedItem.mk "Pasta" "150g" 220%float 8%float 43%float
    0x1.4cccccccccccdp+0%float 2.5%float medium.

Definition breakfast : Db.InsertParams.t :=
  Db.InsertParams.mk "2026-01-15" "voice" "I had two eggs and toast" [eggs; toast].

Definition nothing : Db.InsertParams.t :=
  Db.InsertParams.mk "2026-01-15" "manual" "nothing" [].

Definition breakfastRow : EntryRow.t :=
  EntryRow.mk "a0" "2026-01-15T08:00:00.000Z" "2026-01-15" "voice"
    "I had two eggs and toast" 220%float 15%float 16%float 11%float 1%float.

Definition breakfastItems : list NutritionItem.t :=
  [NutritionItem.mk "a1" "a0" "Eggs" "2 large"
     140%float 12%float 1%float 10%float 0%float high;
   NutritionItem.mk "a2" "a0" "Toast" "1 slice"
     80%float 3%float 15%float 1%float 1%float medium].

(** The store after logging [breakfast] into a fresh database. *)
Definition afterBreakfast : Store.t :=
  Store.mk [breakfastRow] breakfastItems [].

Definition nothingRow : EntryRow.t :=
  EntryRow.mk "b0" "2026-01-15T09:00:00.000Z" "2026-01-15" "manual" "nothing"
    0%float 0%float 0%float 0%float 0%float.

End Sample.

(** ** Sample data for the goals *)

Module GoalsSample.

Definition clock : Env.t := Sample.env "g" "2026-01-15T10:00:00.000Z".

Definition later : Env.t := Sample.env "g" "2026-01-16T10:00:00.000Z".

(** [db.updateGoals({ calories: 2500, protein: 180 })] on a fresh database. *)
Definition first : GoalsPartial.t :=
  GoalsPartial.mk (Some 2500%float) (Some 180%float) None None None.

(** [db.updateGoals({ protein: 200 })] *)
Definition second : GoalsPartial.t :=
  GoalsPartial.mk None (Some 200%float) None None None.

Definition afterFirst : Store.t :=
  Store.mk [] []
    [Goals.mk "default" 2500%float 180%float 250%float 65%float 30%float
       "2026-01-15T10:00:00.000Z"].

Definition afterSecond : Goals.t :=
  Goals.mk "default" 2500%float 200%float 250%float 65%float 30%float
    "2026-01-16T10:00:00.000Z".

(** Tool parameters [{ calories: 2000, protein: -5 }]. *)
Definition mixed : UpdateGoalsTool.Params :=
  fun key =>
    if key =? "calories" then Js.Number 2000%float
    else if key =? "protein" then Js.Number (-5)%float
    else Js.Undefined.

(** Tool parameters [{ fat: 70, note: "x" }]. *)
Definition onlyFat : UpdateGoalsTool.Params :=
  fun key =>
    if key =? "fat" then Js.Number 70%float
    else if key =? "note" then Js.String "x"
    else Js.Undefined.

End GoalsSample.

(** ** Sample data: three days, as in the range test *)

Module RangeSample.

Definition oats : ExtractedItem.t :=
  ExtractedItem.mk "Oats" "100g" 389%float 17%float 66%float 7%float 11%float high.

Definition dayBefore : Db.InsertParams.t :=
  Db.InsertParams.mk "2026-01-14" "manual" "day before" [oats].

Definition targetDay : Db.InsertParams.t :=
  Db.InsertParams.mk "2026-01-15" "manual" "target day" [Sample.rice].

Definition dayAfter : Db.InsertParams.t :=
  Db.InsertParams.mk "2026-01-16" "manual" "day after" [Sample.pasta].

(** The store a method leaves behind. *)
Definition exec {A : Type} (m : M A) (s : Store.t) : Store.t := snd (m s).

(** The three [insertEntry] calls of the test, one second apart. *)
Definition threeDays : Store.t :=
  exec (Db.insertEntry (Sample.env "r" "2026-01-16T12:00:02.000Z") dayAfter)
    (exec (Db.insertEntry (Sample.env "q" "2026-01-16T12:00:01.000Z") targetDay)
       (exec (Db.insertEntry (Sample.env "p" "2026-01-16T12:00:00.000Z") dayBefore)
          Store.empty)).

End RangeSample.

(** ** Vocabulary for the range summary *)

Module Collation.

(** The byte-wise collation as a [localeCompare]. *)
Definition byteCompare (a b : string) : Z :=
  match String.compare a b with
  | Lt => (-1)%Z
  | Eq => 0%Z
  | Gt => 1%Z
  end.

End Collation.

Module Grouping.

(** The entries of a list that carry a given date, in the list's order. *)
Definition group (entries : list NutritionEntry.t) (date : string)
  : list NutritionEntry.t :=
  filter (fun e => NutritionEntry.date e =? date) entries.

(** The number of distinct dates among a list of entries. *)
Definition distinctDays (entries : list NutritionEntry.t) : nat :=
  List.length (nodup string_dec (map NutritionEntry.date entries)).

(** No entry carries a date that names a property of [Object.prototype];
    a [YYYY-MM-DD] date never does. *)
Definition plainDates (entries : list NutritionEntry.t) : Prop :=
  Forall (fun e => GetSummaryTool.inherited (NutritionEntry.date e) = false) entries.

(** What [byDate] holds after the loop has seen [es]. *)
Record grouped (es : list NutritionEntry.t) (byDate : GetSummaryTool.ByDate) : Prop := {
  keys_distinct : NoDup (map fst byDate);
  keys_dates : forall d, In d (map fst byDate) <-> In d (map NutritionEntry.date es);
  keys_totals : forall kv, In kv byDate ->
                  snd kv = fold_left GetSummaryTool.Totals.add (group es (fst kv)) GetSummaryTool.Totals.zero
}.

End Grouping.

(** ** The stores the class can reach *)

Module Reach.

(** A store obtained from a fresh database by calls of the three
    writing methods, whatever they were given and whether or not they
    threw. *)
Inductive reachable : Store.t -> Prop :=
| reach_empty : reachable Store.empty
| reach_insertEntry (env : Env.t) (params : Db.InsertParams.t) (s : Store.t) :
    reachable s -> reachable (snd (Db.insertEntry env params s))
| reach_deleteEntry (id : string) (s : Store.t) :
    reachable s -> reachable (snd (Db.deleteEntry id s))
| reach_updateGoals (env : Env.t) (params : GoalsPartial.t) (s : Store.t) :
    reachable s -> reachable (snd (Db.updateGoals env params s)).

(** [b] non-negative in the sense of the tool's guard: [b < 0] is false. *)
Definition nonNegative (x : Js.number) : Prop := Js.lt x Js.zero = false.

Definition goalsNonNegative (g : Goals.t) : Prop :=
  nonNegative (Goals.calories g) /\ nonNegative (Goals.protein g)
  /\ nonNegative (Goals.carbs g) /\ nonNegative (Goals.fat g)
  /\ nonNegative (Goals.fiber g).

(** The later of two partial updates wins, field by field. *)
Definition over (later earlier : GoalsPartial.t) : GoalsPartial.t :=
  {| GoalsPartial.calories :=
       Js.nullishOpt (GoalsPartial.calories later) (GoalsPartial.calories earlier);
     GoalsPartial.protein :=
       Js.nullishOpt (GoalsPartial.protein later) (GoalsPartial.protein earlier);
     GoalsPartial.carbs :=
       Js.nullishOpt (GoalsPartial.carbs later) (GoalsPartial.carbs earlier);
     GoalsPartial.fat :=
       Js.nullishOpt (GoalsPartial.fat later) (GoalsPartial.fat earlier);
     GoalsPartial.fiber :=
       Js.nullishOpt (GoalsPartial.fiber later) (GoalsPartial.fiber earlier) |}.

End Reach.

(** ** Sample data for the tools and the HTTP handlers *)

Module ToolSample.

(** A [trim] that removes spaces at both ends. *)
Fixpoint dropSpaces (s : string) : string :=
  match s with
  | String " "%char rest => dropSpaces rest
  | _ => s
  end.

Fixpoint reverse (s acc : string) : string :=
  match s with
  | EmptyString => acc
  | String c rest => reverse rest (String c acc)
  end.

Definition trimSpaces (s : string) : string :=
  reverse (dropSpaces (reverse (dropSpaces s) "")) "".

(** Tool parameters [{ entry_id: " a0 " }]. *)
Definition deleteBreakfast : DeleteEntryTool.Params :=
  fun key => if key =? "entry_id" then Js.String " a0 " else Js.Undefined.

(** The body [{ "calories": -100 }]. *)
Definition negativeCalories : string -> Js.value :=
  fun key => if key =? "calories" then Js.Number (-100)%float else Js.Undefined.

End ToolSample.

(** * Properties *)

(** ** The BINARY collation is a total order *)

Module StringOrder.

Lemma ascii_compare_refl (c : ascii) : Ascii.compare c c = Eq.
Proof. unfold Ascii.compare. apply N.compare_refl. Qed.

Lemma compare_refl (s : string) : String.compare s s = Eq.
Proof.
  induction s as [|c s IH]; simpl; [reflexivity|].
  now rewrite ascii_compare_refl.
Qed.

Lemma leb_refl (s : string) : String.leb s s = true.
Proof. unfold String.leb. now rewrite compare_refl. Qed.

Lemma ascii_compare_trans (a b c : ascii) (r : comparison) :
  Ascii.compare a b = r -> Ascii.compare b c = r -> Ascii.compare a c = r.
Proof.
  unfold Ascii.compare. destruct r; intros H1 H2.
  - apply N.compare_eq_iff in H1, H2. rewrite H1, H2. apply N.compare_refl.
  - rewrite N.compare_lt_iff in *. lia.
  - rewrite N.compare_gt_iff in *. lia.
Qed.

(** [compare] never answers [Gt] along a chain of two non-[Gt] steps. *)
Lemma compare_le_trans (a : string) :
  forall b c, String.compare a b <> Gt -> String.compare b c <> Gt ->
              String.compare a c <> Gt.
Proof.
  induction a as [|x a IH]; intros [|y b] [|z c]; simpl; try congruence.
  destruct (Ascii.compare x y) eqn:Exy; try congruence;
    destruct (Ascii.compare y z) eqn:Eyz; try congruence.
  - apply Ascii.compare_eq_iff in Exy, Eyz. subst.
    rewrite ascii_compare_refl. apply IH.
  - apply Ascii.compare_eq_iff in Exy. subst. now rewrite Eyz.
  - apply Ascii.compare_eq_iff in Eyz. subst. now rewrite Exy.
  - now rewrite (ascii_compare_trans x y z Lt Exy Eyz).
Qed.

Lemma leb_trans (a b c : string) :
  String.leb a b = true -> String.leb b c = true -> String.leb a c = true.
Proof.
  unfold String.leb. intros H1 H2.
  pose proof (compare_le_trans a b c) as H.
  destruct (String.compare a b); try discriminate;
    destruct (String.compare b c); try discriminate;
    destruct (String.compare a c); try reflexivity;
    exfalso; apply H; congruence.
Qed.

Lemma leb_false (a b : string) : String.leb a b = false -> String.leb b a = true.
Proof. destruct (String.leb_total a b) as [H|H]; congruence. Qed.

(** Both bounds equal: [d <= x <= d] pins [x]. *)
Lemma between_same (d x : string) :
  String.leb d x && String.leb x d = true <-> x = d.
Proof.
  rewrite andb_true_iff. split.
  - intros [H1 H2]. now apply String.leb_antisym.
  - intros ->. now rewrite leb_refl.
Qed.

End StringOrder.

(** ** The stable insertion sort *)

Module SortingFacts.
Import Sorting.

Section SortBy.
Context {A : Type} (le : A -> A -> bool).

Lemma insert_perm (x : A) (l : list A) : Permutation (insert le x l) (x :: l).
Proof.
  induction l as [|y l IH]; simpl; [reflexivity|].
  destruct (le x y); [reflexivity|].
  rewrite IH. apply perm_swap.
Qed.

Lemma sortBy_perm (l : list A) : Permutation (sortBy le l) l.
Proof.
  induction l as [|x l IH]; simpl; [reflexivity|].
  rewrite insert_perm. now constructor.
Qed.

Lemma sortBy_In (l : list A) (x : A) : In x (sortBy le l) <-> In x l.
Proof.
  split; apply Permutation_in; [|symmetry]; apply sortBy_perm.
Qed.

Lemma sortBy_length (l : list A) : List.length (sortBy le l) = List.length l.
Proof. apply Permutation_length, sortBy_perm. Qed.

Hypothesis le_total : forall x y, le x y = false -> le y x = true.

Lemma insert_HdRel (x a : A) (l : list A) :
  le a x = true -> HdRel (fun u v => le u v = true) a l ->
  HdRel (fun u v => le u v = true) a (insert le x l).
Proof.
  intros Hax H. destruct l as [|y l]; simpl; [now constructor|].
  destruct (le x y); constructor; [assumption|].
  now inversion H.
Qed.

Lemma insert_sorted (x : A) (l : list A) :
  Sorted (fun u v => le u v = true) l ->
  Sorted (fun u v => le u v = true) (insert le x l).
Proof.
  induction l as [|y l IH]; intros H; simpl.
  - repeat constructor.
  - destruct (le x y) eqn:E.
    + constructor; [assumption|now constructor].
    + inversion H; subst. constructor; [now apply IH|].
      apply insert_HdRel; [now apply le_total|assumption].
Qed.

Lemma sortBy_sorted (l : list A) : Sorted (fun u v => le u v = true) (sortBy le l).
Proof.
  induction l as [|x l IH]; simpl; [constructor|now apply insert_sorted].
Qed.

Hypothesis le_trans : forall x y z, le x y = true -> le y z = true -> le x z = true.

Lemma sortBy_strongly_sorted (l : list A) :
  StronglySorted (fun u v => le u v = true) (sortBy le l).
Proof.
  apply Sorted_StronglySorted; [|apply sortBy_sorted].
  intros x y z. apply le_trans.
Qed.

End SortBy.
End SortingFacts.

(** ** Numbers through a REAL column *)

Module SqliteFacts.

Lemma real_idempotent (x : Js.number) : Sqlite.real (Sqlite.real x) = Sqlite.real x.
Proof.
  unfold Sqlite.real. destruct (Js.strictEq x 0%float) eqn:E; [reflexivity|].
  now rewrite E.
Qed.

Lemma real_not_NaN (x : Js.number) : Js.isNaN x = false -> Js.isNaN (Sqlite.real x) = false.
Proof. unfold Sqlite.real. now destruct (Js.strictEq x 0%float). Qed.

(** What is read is [===] to what was written. *)
Lemma real_strictEq (x : Js.number) :
  Js.isNaN x = false -> Js.strictEq x (Sqlite.real x) = true.
Proof.
  unfold Sqlite.real. destruct (Js.strictEq x 0%float) eqn:E; [intros _; exact E|].
  unfold Js.isNaN, PrimFloat.is_nan, Js.strictEq. intros H.
  now apply negb_false_iff in H.
Qed.

Lemma real_not_negative (x : Js.number) :
  Js.lt x Js.zero = false -> Js.lt (Sqlite.real x) Js.zero = false.
Proof. unfold Sqlite.real. now destruct (Js.strictEq x 0%float). Qed.

Lemma anyNaN_false (xs : list Js.number) :
  Db.anyNaN xs = false <-> Forall (fun x => Js.isNaN x = false) xs.
Proof.
  unfold Db.anyNaN. induction xs as [|x xs IH]; simpl.
  - split; [constructor|reflexivity].
  - rewrite orb_false_iff, IH. split.
    + intros [H1 H2]. now constructor.
    + intros H. now inversion H.
Qed.

Lemma anyNaN_real (xs : list Js.number) :
  Db.anyNaN xs = false -> Db.anyNaN (map Sqlite.real xs) = false.
Proof.
  rewrite !anyNaN_false. intros H. apply Forall_map.
  eapply Forall_impl; [|exact H]. intros x. apply real_not_NaN.
Qed.

Lemma five_not_NaN (a b c d e : Js.number) :
  Db.anyNaN [a; b; c; d; e] = false ->
  Js.isNaN a = false /\ Js.isNaN b = false /\ Js.isNaN c = false
  /\ Js.isNaN d = false /\ Js.isNaN e = false.
Proof.
  unfold Db.anyNaN. cbn [existsb]. rewrite !orb_false_iff. tauto.
Qed.

End SqliteFacts.

(** ** Ledger: insertEntry *)

Module InsertFacts.
Import Inserted.

Lemma existsb_key_In {A : Type} (key : A -> string) (l : list A) (x : string) :
  existsb (fun a => key a =? x) l = true <-> In x (map key l).
Proof.
  rewrite existsb_exists, in_map_iff. split.
  - intros (a & Ha & E). apply String.eqb_eq in E. now exists a.
  - intros (a & E & Ha). exists a. split; [assumption|]. now apply String.eqb_eq.
Qed.

Lemma existsb_key_fresh {A : Type} (key : A -> string) (l : list A) (x : string) :
  existsb (fun a => key a =? x) l = false <-> ~ In x (map key l).
Proof.
  rewrite <- existsb_key_In. destruct (existsb _ l); split; congruence.
Qed.


(** What one statement does when it returns, and when it throws. *)

Lemma insertEntryStmt_returns (row : EntryRow.t) (s s' : Store.t) (u : unit) :
  Db.insertEntryStmt_run row s = (Return u, s') ->
  Db.anyNaN (Schema.entryReals row) = false
  /\ ~ In (EntryRow.id row) (map EntryRow.id (Store.entries s))
  /\ s' = Store.mk (Store.entries s ++ [EntryRow.stored row]) (Store.items s)
                   (Store.goals s).
Proof.
  unfold Db.insertEntryStmt_run, Schema.entryReals.
  destruct (Db.anyNaN _) eqn:En; [discriminate|].
  destruct (existsb _ (Store.entries s)) eqn:Ex; [discriminate|].
  intros H. inversion H. repeat split. now apply existsb_key_fresh in Ex.
Qed.

Lemma insertEntryStmt_throws (row : EntryRow.t) (s s' : Store.t) (e : Exception) :
  Db.insertEntryStmt_run row s = (Throw e, s') -> s' = s.
Proof.
  unfold Db.insertEntryStmt_run.
  destruct (Db.anyNaN _); [now inversion 1|].
  destruct (existsb _ _); [now inversion 1|discriminate].
Qed.

Lemma insertItemStmt_returns (row : NutritionItem.t) (s s' : Store.t) (u : unit) :
  Db.insertItemStmt_run row s = (Return u, s') ->
  Db.anyNaN (Schema.itemReals row) = false
  /\ ~ In (NutritionItem.id row) (map NutritionItem.id (Store.items s))
  /\ In (NutritionItem.entry_id row) (map EntryRow.id (Store.entries s))
  /\ s' = Store.mk (Store.entries s) (Store.items s ++ [NutritionItem.stored row])
                   (Store.goals s).
Proof.
  unfold Db.insertItemStmt_run, Schema.itemReals.
  destruct (Db.anyNaN _) eqn:En; [discriminate|].
  destruct (existsb _ (Store.items s)) eqn:Ex; [discriminate|].
  destruct (existsb _ (Store.entries s)) eqn:Ef; simpl; [|discriminate].
  intros H. inversion H. repeat split.
  - now apply existsb_key_fresh in Ex.
  - now apply existsb_key_In in Ef.
Qed.

Lemma insertItemStmt_throws (row : NutritionItem.t) (s s' : Store.t) (e : Exception) :
  Db.insertItemStmt_run row s = (Throw e, s') -> s' = s.
Proof.
  unfold Db.insertItemStmt_run.
  destruct (Db.anyNaN _); [now inversion 1|].
  destruct (existsb _ (Store.items s)); [now inversion 1|].
  destruct (existsb _ (Store.entries s)); simpl; [discriminate|now inversion 1].
Qed.

(** The loop pushes exactly the rows it inserts, in order. *)
Lemma insertItems_returns (uuid : nat -> string) (entryId : string)
    (items : list ExtractedItem.t) :
  forall (k : nat) (acc r : list NutritionItem.t) (s s' : Store.t),
  Db.insertItems uuid entryId k items acc s = (Return r, s') ->
  r = acc ++ itemRows uuid entryId k items
  /\ s' = Store.mk (Store.entries s)
                   (Store.items s
                    ++ map NutritionItem.stored (itemRows uuid entryId k items))
                   (Store.goals s).
Proof.
  induction items as [|item items IH]; intros k acc r s s'; simpl.
  - unfold ret. intros H. inversion H. rewrite !app_nil_r. now destruct s'.
  - unfold bind.
    destruct (Db.insertItemStmt_run _ s) as [[u|e] s1] eqn:E1; [|discriminate].
    apply insertItemStmt_returns in E1. destruct E1 as (_ & _ & _ & ->).
    intros H. apply IH in H. destruct H as [-> ->]. simpl.
    now rewrite <- !app_assoc.
Qed.

Lemma itemRows_extracted (uuid : nat -> string) (entryId : string)
    (items : list ExtractedItem.t) :
  forall k, map NutritionItem.extracted (itemRows uuid entryId k items) = items.
Proof.
  induction items as [|item items IH]; intros k; simpl; [reflexivity|].
  rewrite IH. now destruct item.
Qed.


Lemma itemRows_owner (uuid : nat -> string) (entryId : string)
    (items : list ExtractedItem.t) :
  forall k, Forall (fun i => NutritionItem.entry_id i = entryId)
                   (itemRows uuid entryId k items).
Proof.
  induction items as [|item items IH]; intros k; simpl; constructor;
    [reflexivity|apply IH].
Qed.


(** insertEntry, when it returns: the row and the item rows are
    appended, and the entry returned is built from them. *)
Lemma insertEntry_returns (env : Env.t) (params : Db.InsertParams.t)
    (s s' : Store.t) (e : NutritionEntry.t) :
  Db.insertEntry env params s = (Return e, s') ->
  let row := entryRow env params in
  let rows := itemRows (Env.randomUUID env) (EntryRow.id row) 1
                       (Db.InsertParams.items params) in
  e = NutritionEntry.ofRow row rows
  /\ s' = Store.mk (Store.entries s ++ [EntryRow.stored row])
                   (Store.items s ++ map NutritionItem.stored rows) (Store.goals s)
  /\ ~ In (EntryRow.id row) (map EntryRow.id (Store.entries s)).
Proof.
  unfold Db.insertEntry. fold (entryRow env params).
  unfold bind at 1, Db.transaction, bind at 1.
  destruct (Db.insertEntryStmt_run (entryRow env params) s) as [[u|x] s1] eqn:E1;
    [|discriminate].
  apply insertEntryStmt_returns in E1. destruct E1 as (_ & Hfresh & ->).
  destruct (Db.insertItems _ _ _ _ _ _) as [[r|x] s2] eqn:E2; [|discriminate].
  apply insertItems_returns in E2. destruct E2 as [-> ->]. simpl.
  unfold ret. intros H. inversion H. auto.
Qed.

(** insertEntry, when it throws: ROLLBACK. *)
Lemma insertEntry_throws (env : Env.t) (params : Db.InsertParams.t)
    (s s' : Store.t) (x : Exception) :
  Db.insertEntry env params s = (Throw x, s') -> s' = s.
Proof.
  unfold Db.insertEntry, bind at 1, Db.transaction.
  destruct (bind _ _ s) as [[r|y] s1]; [discriminate|].
  now inversion 1.
Qed.




End InsertFacts.

(** ** Ledger: the claims about insertEntry *)

Module Ledger.
Import Inserted InsertFacts.

Lemma find_fresh_snoc {A : Type} (p : A -> bool) (l : list A) (x : A) :
  existsb p l = false -> p x = true -> find p (l ++ [x]) = Some x.
Proof.
  induction l as [|y l IH]; simpl; intros H Hx.
  - now rewrite Hx.
  - apply orb_false_iff in H. destruct H as [-> H]. now apply IH.
Qed.

Lemma filter_none {A : Type} (p : A -> bool) (l : list A) :
  (forall x, In x l -> p x = false) -> filter p l = [].
Proof.
  induction l as [|y l IH]; simpl; intros H; [reflexivity|].
  rewrite (H y) by now left. apply IH. intros x Hx. apply H. now right.
Qed.

Lemma filter_all {A : Type} (p : A -> bool) (l : list A) :
  Forall (fun x => p x = true) l -> filter p l = l.
Proof.
  induction 1 as [|y l Hy _ IH]; simpl; [reflexivity|].
  now rewrite Hy, IH.
Qed.

Lemma wf_empty : Schema.wf Store.empty.
Proof. split; simpl; try constructor; intros ? []. Qed.

(** In a store that respects the foreign key, a fresh entry id owns no item. *)
Lemma fresh_id_owns_nothing (s : Store.t) (id : string) :
  Schema.wf s -> ~ In id (map EntryRow.id (Store.entries s)) ->
  Db.itemsOf s id = [].
Proof.
  intros W Hfresh. apply filter_none. intros i Hi.
  apply String.eqb_neq. intros E. apply Hfresh. rewrite <- E.
  now apply (Schema.items_fk s W).
Qed.

(** The item rows of a just inserted entry are the ones the loop wrote. *)
Lemma itemsOf_inserted (s : Store.t) (row : EntryRow.t) (rows : list NutritionItem.t) :
  Schema.wf s -> ~ In (EntryRow.id row) (map EntryRow.id (Store.entries s)) ->
  Forall (fun i => NutritionItem.entry_id i = EntryRow.id row) rows ->
  Db.itemsOf (Store.mk (Store.entries s ++ [EntryRow.stored row])
                       (Store.items s ++ map NutritionItem.stored rows) (Store.goals s))
             (EntryRow.id row) = map NutritionItem.stored rows.
Proof.
  intros W Hfresh Hown. unfold Db.itemsOf. cbn [Store.items]. rewrite filter_app.
  fold (Db.itemsOf s (EntryRow.id row)).
  rewrite (fresh_id_owns_nothing s _ W Hfresh). simpl.
  apply filter_all. apply Forall_map. eapply Forall_impl; [|exact Hown].
  intros i E. now apply String.eqb_eq.
Qed.



(** A negative zero among the macros: insertEntry returns it as given,
    the [items] table gives back [0]. *)
Example insertEntry_negative_zero :
  let water :=
    ExtractedItem.mk "Water" "1 glass" (-0)%float 0%float 0%float 0%float 0%float high in
  let params := Db.InsertParams.mk "2026-01-15" "text" "a glass of water" [water] in
  let run := Db.insertEntry (Sample.env "w" "2026-01-15T07:00:00.000Z") params
                            Store.empty in
  (exists e, fst run = Return e
             /\ map NutritionItem.calories (NutritionEntry.items e) = [(-0)%float])
  /\ map NutritionItem.calories (Store.items (snd run)) = [0%float]
  /\ (-0)%float <> 0%float.
Proof.
  cbv zeta. split; [eexists; split; reflexivity|]. split; [reflexivity|].
  intros H. apply (f_equal (fun x => PrimFloat.div 1 x)) in H.
  apply (f_equal (fun x => PrimFloat.ltb x 0)) in H. vm_compute in H. discriminate H.
Qed.

(** C2, as the specification has it, fails: insertEntry does not look
    at the length of [items].  Logging an empty list into a fresh
    database returns an entry and leaves its row behind. *)
Lemma insertEntry_empty_items_accepted :
  Db.insertEntry (Sample.env "b" "2026-01-15T09:00:00.000Z") Sample.nothing Store.empty
  = (Return (NutritionEntry.ofRow Sample.nothingRow []),
     Store.mk [Sample.nothingRow] [] []).
Proof. reflexivity. Qed.

(** C2, amended.  insertEntry validates nothing: with an empty [items]
    and an entry identifier not yet in use it returns an entry whose
    five totals are 0 and whose items are empty, having written that one
    entry row and no item row. *)
Theorem insertEntry_empty_items (env : Env.t) (params : Db.InsertParams.t) (s : Store.t) :
  Db.InsertParams.items params = [] ->
  ~ In (Env.randomUUID env 0) (map EntryRow.id (Store.entries s)) ->
  let row :=
    EntryRow.mk (Env.randomUUID env 0) (Env.now env) (Db.InsertParams.date params)
      (Db.InsertParams.source params) (Db.InsertParams.rawInput params)
      Js.zero Js.zero Js.zero Js.zero Js.zero in
  Db.insertEntry env params s
  = (Return (NutritionEntry.ofRow row []),
     Store.mk (Store.entries s ++ [row]) (Store.items s) (Store.goals s)).
Proof.
  intros Hitems Hfresh row. apply existsb_key_fresh in Hfresh.
  unfold Db.insertEntry. rewrite Hitems.
  unfold bind, Db.transaction, Db.insertEntryStmt_run, ret.
  cbn [Db.total fold_left EntryRow.id EntryRow.total_calories EntryRow.total_protein
       EntryRow.total_carbs EntryRow.total_fat EntryRow.total_fiber].
  replace (Db.anyNaN [Js.zero; Js.zero; Js.zero; Js.zero; Js.zero]) with false
    by reflexivity.
  rewrite Hfresh. reflexivity.
Qed.

Lemma insertEntry_empty_items_witness :
  Db.insertEntry (Sample.env "b" "2026-01-15T09:00:00.000Z") Sample.nothing
                 Sample.afterBreakfast
  = (Return (NutritionEntry.ofRow Sample.nothingRow []),
     Store.mk [Sample.breakfastRow; Sample.nothingRow] Sample.breakfastItems []).
Proof.
  apply (insertEntry_empty_items (Sample.env "b" "2026-01-15T09:00:00.000Z")
           Sample.nothing Sample.afterBreakfast eq_refl).
  simpl. intros [H|[]]. discriminate H.
Defined.


(** A failure in the middle of the loop: the second item draws the UUID
    of the first.  The entry row and the first item row had been
    written; the transaction takes them back. *)
Example insertEntry_rolls_back :
  Db.insertEntry (Sample.stuck "2026-01-15T08:00:00.000Z") Sample.breakfast Store.empty
  = (Throw (SqliteError SQLITE_CONSTRAINT_PRIMARYKEY), Store.empty).
Proof. reflexivity. Qed.

(** The same statements outside [transaction] would have left one entry
    row and one of its two item rows. *)
Example statements_alone_are_not_atomic :
  let env := Sample.stuck "2026-01-15T08:00:00.000Z" in
  let row := Inserted.entryRow env Sample.breakfast in
  snd (bind (Db.insertEntryStmt_run row)
            (fun _ => Db.insertItems (Env.randomUUID env) "entry" 1
                        [Sample.eggs; Sample.toast] []) Store.empty)
  = Store.mk [row] [NutritionItem.ofExtracted "item" "entry" Sample.eggs] [].
Proof. reflexivity. Qed.

(** Logging the same entry twice with the same UUIDs: the second call
    throws and changes nothing. *)
Example insertEntry_duplicate_id :
  Db.insertEntry (Sample.env "a" "2026-01-15T08:00:00.000Z") Sample.breakfast
                 Sample.afterBreakfast
  = (Throw (SqliteError SQLITE_CONSTRAINT_PRIMARYKEY), Sample.afterBreakfast).
Proof. reflexivity. Qed.

End Ledger.

(** ** insertEntry keeps the schema, and returns when the UUIDs are fresh *)

Module InsertInvariant.
Import Inserted InsertFacts.

Lemma NoDup_snoc {A : Type} (l : list A) (x : A) :
  NoDup l -> ~ In x l -> NoDup (l ++ [x]).
Proof.
  intros Hl Hx. apply NoDup_app; [assumption|repeat constructor; intros []|].
  intros a Ha [<-|[]]. contradiction.
Qed.

Lemma insertEntryStmt_keeps_wf (row : EntryRow.t) (s s' : Store.t) (u : unit) :
  Schema.wf s -> Db.insertEntryStmt_run row s = (Return u, s') -> Schema.wf s'.
Proof.
  intros W H. apply insertEntryStmt_returns in H. destruct H as (Hreal & Hfresh & ->).
  destruct W as [W1 W2 W3 W4 W5 W6 W7].
  split; cbn [Store.entries Store.items Store.goals]; try assumption.
  - rewrite map_app. now apply NoDup_snoc.
  - intros i Hi. rewrite map_app. apply in_or_app. left. now apply W3.
  - intros e He. apply in_app_or in He. destruct He as [He|[<-|[]]]; auto.
    now apply (SqliteFacts.anyNaN_real (Schema.entryReals row)).
Qed.

Lemma insertItemStmt_keeps_wf (row : NutritionItem.t) (s s' : Store.t) (u : unit) :
  Schema.wf s -> Db.insertItemStmt_run row s = (Return u, s') -> Schema.wf s'.
Proof.
  intros W H. apply insertItemStmt_returns in H.
  destruct H as (Hreal & Hfresh & Hfk & ->).
  destruct W as [W1 W2 W3 W4 W5 W6 W7].
  split; cbn [Store.entries Store.items Store.goals]; try assumption.
  - rewrite map_app. now apply NoDup_snoc.
  - intros i Hi. apply in_app_or in Hi. destruct Hi as [Hi|[<-|[]]]; auto.
  - intros i Hi. apply in_app_or in Hi. destruct Hi as [Hi|[<-|[]]]; auto.
    now apply (SqliteFacts.anyNaN_real (Schema.itemReals row)).
Qed.

Lemma insertItems_keeps_wf (uuid : nat -> string) (entryId : string)
    (items : list ExtractedItem.t) :
  forall (k : nat) (acc r : list NutritionItem.t) (s s' : Store.t),
  Schema.wf s -> Db.insertItems uuid entryId k items acc s = (Return r, s') ->
  Schema.wf s'.
Proof.
  induction items as [|item items IH]; intros k acc r s s' W; simpl.
  - unfold ret. intros H. inversion H. now subst.
  - unfold bind.
    destruct (Db.insertItemStmt_run _ s) as [[u|e] s1] eqn:E1; [|discriminate].
    apply (insertItemStmt_keeps_wf _ _ _ _ W) in E1. intros H.
    exact (IH _ _ _ _ _ E1 H).
Qed.

(** Whatever insertEntry does, the store it leaves respects the schema. *)
Lemma insertEntry_keeps_wf (env : Env.t) (params : Db.InsertParams.t) (s : Store.t) :
  Schema.wf s -> Schema.wf (snd (Db.insertEntry env params s)).
Proof.
  intros W. unfold Db.insertEntry, bind at 1, Db.transaction, bind at 1.
  destruct (Db.insertEntryStmt_run _ s) as [[u|x] s1] eqn:E1; [|exact W].
  apply (insertEntryStmt_keeps_wf _ _ _ _ W) in E1.
  destruct (Db.insertItems _ _ _ _ _ s1) as [[r|x] s2] eqn:E2; [|exact W].
  simpl. now apply (insertItems_keeps_wf _ _ _ _ _ _ _ _ E1) in E2.
Qed.

Lemma insertItems_succeeds (uuid : nat -> string) (entryId : string)
    (items : list ExtractedItem.t) :
  forall (k : nat) (acc : list NutritionItem.t) (s : Store.t),
  In entryId (map EntryRow.id (Store.entries s)) ->
  NoDup (map uuid (seq k (List.length items))) ->
  (forall j, In j (seq k (List.length items)) ->
             ~ In (uuid j) (map NutritionItem.id (Store.items s))) ->
  (forall item, In item items ->
     Db.anyNaN (Schema.itemReals (NutritionItem.ofExtracted "" "" item)) = false) ->
  exists r s', Db.insertItems uuid entryId k items acc s = (Return r, s').
Proof.
  induction items as [|item items IH]; intros k acc s Hfk Hnd Hfresh Hreal; simpl.
  - now exists acc, s.
  - unfold bind, Db.insertItemStmt_run.
    cbn [NutritionItem.ofExtracted NutritionItem.calories NutritionItem.protein
         NutritionItem.carbs NutritionItem.fat NutritionItem.fiber
         NutritionItem.id NutritionItem.entry_id].
    pose proof (Hreal item (or_introl eq_refl)) as Hr.
    unfold Schema.itemReals in Hr.
    cbn [NutritionItem.ofExtracted NutritionItem.calories NutritionItem.protein
         NutritionItem.carbs NutritionItem.fat NutritionItem.fiber] in Hr.
    rewrite Hr.
    assert (Hk : existsb (fun i => NutritionItem.id i =? uuid k) (Store.items s) = false).
    { apply existsb_key_fresh. apply Hfresh. simpl. now left. }
    rewrite Hk.
    assert (He : existsb (fun e => EntryRow.id e =? entryId) (Store.entries s) = true)
      by now apply existsb_key_In.
    rewrite He. simpl negb. cbv iota.
    simpl in Hnd. apply NoDup_cons_iff in Hnd. destruct Hnd as [Hk' Hnd].
    apply IH; simpl.
    + exact Hfk.
    + exact Hnd.
    + intros j Hj. rewrite map_app. intros Hin. apply in_app_or in Hin.
      destruct Hin as [Hin|[Hin|[]]].
      * apply (Hfresh j); [now right|exact Hin].
      * apply Hk'. simpl in Hin. rewrite Hin. now apply in_map.
    + intros it Hit. apply Hreal. now right.
Qed.

(** X9. insertEntry returns whenever no total and no macro field is
    NaN and the UUIDs it draws are pairwise distinct, the first one not
    yet an entry identifier, the others not yet item identifiers. *)
Lemma insertEntry_succeeds (env : Env.t) (params : Db.InsertParams.t) (s : Store.t) :
  Db.anyNaN (Schema.entryReals (entryRow env params)) = false ->
  (forall item, In item (Db.InsertParams.items params) ->
     Db.anyNaN (Schema.itemReals (NutritionItem.ofExtracted "" "" item)) = false) ->
  NoDup (uuids env params) ->
  ~ In (Env.randomUUID env 0) (map EntryRow.id (Store.entries s)) ->
  (forall j, In j (seq 1 (List.length (Db.InsertParams.items params))) ->
             ~ In (Env.randomUUID env j) (map NutritionItem.id (Store.items s))) ->
  exists e s', Db.insertEntry env params s = (Return e, s').
Proof.
  intros Hreal Hitems Hnd Hfresh Hfresh'.
  unfold Db.insertEntry. fold (entryRow env params).
  unfold bind at 1, Db.transaction, bind at 1, Db.insertEntryStmt_run.
  unfold Schema.entryReals in Hreal. rewrite Hreal.
  apply existsb_key_fresh in Hfresh.
  replace (EntryRow.id (entryRow env params)) with (Env.randomUUID env 0) by reflexivity.
  rewrite Hfresh.
  unfold uuids in Hnd. simpl in Hnd. apply NoDup_cons_iff in Hnd.
  destruct (insertItems_succeeds (Env.randomUUID env) (Env.randomUUID env 0)
              (Db.InsertParams.items params) 1 []
              (Store.mk (Store.entries s ++ [EntryRow.stored (entryRow env params)])
                        (Store.items s) (Store.goals s))) as (r & s' & E).
  - simpl. rewrite map_app. apply in_or_app. right. now left.
  - apply Hnd.
  - exact Hfresh'.
  - exact Hitems.
  - rewrite E. unfold ret. eauto.
Qed.

Lemma insertEntry_succeeds_witness :
  exists e s',
    Db.insertEntry (Sample.env "b" "2026-01-15T09:00:00.000Z") Sample.breakfast
                   Sample.afterBreakfast = (Return e, s').
Proof.
  apply insertEntry_succeeds.
  - reflexivity.
  - intros item [<-|[<-|[]]]; reflexivity.
  - vm_compute. repeat constructor; simpl; intuition discriminate.
  - simpl. intuition discriminate.
  - intros j Hj. simpl in Hj. destruct Hj as [<-|[<-|[]]]; simpl; intuition discriminate.
Defined.

End InsertInvariant.

(** ** Goals store *)

Module GoalsFacts.
Import InsertFacts.

Lemma find_replaced {A : Type} (p : A -> bool) (g : A) (l : list A) :
  existsb p l = true -> p g = true ->
  find p (map (fun r => if p r then g else r) l) = Some g.
Proof.
  intros H Hg. induction l as [|r l IH]; simpl in *; [discriminate|].
  destruct (p r) eqn:E.
  - now rewrite Hg.
  - rewrite E. now apply IH.
Qed.

(** The upsert, when it returns: the row keyed like [g] is [g] as the
    table gives it back. *)
Lemma upsertGoals_returns (g : Goals.t) (s s' : Store.t) (u : unit) :
  Db.upsertGoalsStmt_run g s = (Return u, s') ->
  Db.anyNaN (Schema.goalsReals g) = false
  /\ find (fun r => Goals.id r =? Goals.id g) (Store.goals s') = Some (Goals.stored g)
  /\ Store.entries s' = Store.entries s
  /\ Store.items s' = Store.items s
  /\ map Goals.id (Store.goals s')
     = (if existsb (fun r => Goals.id r =? Goals.id g) (Store.goals s)
        then map Goals.id (Store.goals s)
        else map Goals.id (Store.goals s) ++ [Goals.id g])
  /\ (forall r, In r (Store.goals s') -> r = Goals.stored g \/ In r (Store.goals s)).
Proof.
  unfold Db.upsertGoalsStmt_run, Schema.goalsReals.
  destruct (Db.anyNaN _) eqn:En; [discriminate|].
  destruct (existsb _ (Store.goals s)) eqn:Ex; intros H; inversion H; subst;
    cbn [Store.goals Store.entries Store.items]; repeat split.
  - apply (find_replaced (fun r => Goals.id r =? Goals.id g));
      [assumption|apply String.eqb_refl].
  - rewrite map_map. apply map_ext_in. intros r _.
    destruct (Goals.id r =? Goals.id g) eqn:E; [|reflexivity].
    apply String.eqb_eq in E. now symmetry.
  - intros r Hr. apply in_map_iff in Hr. destruct Hr as (r0 & <- & Hr0).
    destruct (Goals.id r0 =? Goals.id g); auto.
  - apply Ledger.find_fresh_snoc; [assumption|apply String.eqb_refl].
  - now rewrite map_app.
  - intros r Hr. apply in_app_or in Hr. destruct Hr as [Hr|[<-|[]]]; auto.
Qed.

Lemma upsertGoals_throws (g : Goals.t) (s s' : Store.t) (e : Exception) :
  Db.upsertGoalsStmt_run g s = (Throw e, s') ->
  s' = s /\ e = SqliteError SQLITE_CONSTRAINT_NOTNULL
  /\ Db.anyNaN (Schema.goalsReals g) = true.
Proof.
  unfold Db.upsertGoalsStmt_run, Schema.goalsReals.
  destruct (Db.anyNaN _); [|destruct (existsb _ _); discriminate].
  intros H. now inversion H.
Qed.

(** The code's [a ?? b?.f ?? c] is the three-way merge. *)
Lemma nullish_merged (supplied : option Js.number) (stored : option Goals.t)
    (field : Goals.t -> Js.number) (now : string) :
  Js.nullish (Js.nullishOpt supplied (option_map field stored)) (field (Spec.baseline now))
  = Spec.merged supplied stored field now.
Proof. now destruct supplied, stored. Qed.

Lemma updateGoals_unfold (env : Env.t) (params : GoalsPartial.t) (s : Store.t) :
  Db.updateGoals env params s
  = bind (Db.upsertGoalsStmt_run (Spec.mergedGoals env params s))
         (fun _ => ret (Spec.mergedGoals env params s)) s.
Proof.
  unfold Db.updateGoals, Spec.mergedGoals.
  now rewrite <- !(nullish_merged _ _ _ (Env.now env)).
Qed.

(** C4. Partial update: when updateGoals returns, each field of the
    record it returns is the supplied value if one was supplied, else
    the value stored before if a record existed, else the baseline
    (2000/150/250/65/30); the record is stamped with the current time,
    and getGoals afterwards reads it as the table gives it back, each
    target equal as a number to the one returned. *)
Theorem updateGoals_partial (env : Env.t) (params : GoalsPartial.t)
    (s s' : Store.t) (g : Goals.t) :
  Db.updateGoals env params s = (Return g, s') ->
  let stored := Db.getGoals s in
  let now := Env.now env in
  Goals.calories g = Spec.merged (GoalsPartial.calories params) stored Goals.calories now
  /\ Goals.protein g = Spec.merged (GoalsPartial.protein params) stored Goals.protein now
  /\ Goals.carbs g = Spec.merged (GoalsPartial.carbs params) stored Goals.carbs now
  /\ Goals.fat g = Spec.merged (GoalsPartial.fat params) stored Goals.fat now
  /\ Goals.fiber g = Spec.merged (GoalsPartial.fiber params) stored Goals.fiber now
  /\ Goals.id g = "default"
  /\ Goals.updated_at g = now
  /\ (exists read : Goals.t,
        Db.getGoals s' = Some read
        /\ read = Goals.stored g
        /\ Spec.readBack (Goals.calories g) (Goals.calories read)
        /\ Spec.readBack (Goals.protein g) (Goals.protein read)
        /\ Spec.readBack (Goals.carbs g) (Goals.carbs read)
        /\ Spec.readBack (Goals.fat g) (Goals.fat read)
        /\ Spec.readBack (Goals.fiber g) (Goals.fiber read))
  /\ Store.entries s' = Store.entries s
  /\ Store.items s' = Store.items s.
Proof.
  rewrite updateGoals_unfold. unfold bind.
  destruct (Db.upsertGoalsStmt_run _ s) as [[u|e] s1] eqn:E; [|discriminate].
  unfold ret. intros H. inversion H. subst s1. clear H.
  apply upsertGoals_returns in E. destruct E as (Hreal & Hfind & He & Hi & _ & _).
  subst g. cbv zeta.
  split; [reflexivity|]. split; [reflexivity|]. split; [reflexivity|].
  split; [reflexivity|]. split; [reflexivity|]. split; [reflexivity|].
  split; [reflexivity|]. split; [|split; assumption].
  exists (Goals.stored (Spec.mergedGoals env params s)).
  split; [exact Hfind|]. split; [reflexivity|].
  apply SqliteFacts.five_not_NaN in Hreal. destruct Hreal as (H1 & H2 & H3 & H4 & H5).
  repeat split; now apply SqliteFacts.real_strictEq.
Qed.

(** The test "updates existing goals partially". *)
Lemma updateGoals_partial_witness :
  Goals.calories GoalsSample.afterSecond = 2500%float
  /\ Goals.protein GoalsSample.afterSecond = 200%float
  /\ Goals.carbs GoalsSample.afterSecond = 250%float
  /\ Goals.fat GoalsSample.afterSecond = 65%float
  /\ Goals.fiber GoalsSample.afterSecond = 30%float
  /\ Goals.id GoalsSample.afterSecond = "default"
  /\ Goals.updated_at GoalsSample.afterSecond = "2026-01-16T10:00:00.000Z"
  /\ (exists read : Goals.t,
        Db.getGoals (Store.mk [] [] [GoalsSample.afterSecond]) = Some read
        /\ read = GoalsSample.afterSecond
        /\ Spec.readBack 2500%float (Goals.calories read)
        /\ Spec.readBack 200%float (Goals.protein read)
        /\ Spec.readBack 250%float (Goals.carbs read)
        /\ Spec.readBack 65%float (Goals.fat read)
        /\ Spec.readBack 30%float (Goals.fiber read))
  /\ Store.entries (Store.mk [] [] [GoalsSample.afterSecond]) = []
  /\ Store.items (Store.mk [] [] [GoalsSample.afterSecond]) = [].
Proof.
  exact (updateGoals_partial GoalsSample.later GoalsSample.second
           GoalsSample.afterFirst (Store.mk [] [] [GoalsSample.afterSecond])
           GoalsSample.afterSecond eq_refl).
Defined.

(** A negative zero as a target: updateGoals returns it as given,
    getGoals reads [0]. *)
Example updateGoals_negative_zero :
  let run := Db.updateGoals GoalsSample.clock
               (GoalsPartial.mk None None None None (Some (-0)%float)) Store.empty in
  (exists g, fst run = Return g /\ Goals.fiber g = (-0)%float)
  /\ option_map Goals.fiber (Db.getGoals (snd run)) = Some 0%float.
Proof. cbv zeta. split; [eexists; split; reflexivity|reflexivity]. Qed.

(** The test "creates goals with defaults", with two fields supplied. *)
Example updateGoals_first_creation :
  Db.updateGoals GoalsSample.clock GoalsSample.first Store.empty
  = (Return (Goals.mk "default" 2500%float 180%float 250%float 65%float 30%float
               "2026-01-15T10:00:00.000Z"),
     GoalsSample.afterFirst).
Proof. reflexivity. Qed.

(** updateGoals throws only when a NaN reaches a REAL NOT NULL column,
    and then it has changed nothing. *)
Lemma updateGoals_throws (env : Env.t) (params : GoalsPartial.t)
    (s s' : Store.t) (e : Exception) :
  Db.updateGoals env params s = (Throw e, s') ->
  s' = s /\ e = SqliteError SQLITE_CONSTRAINT_NOTNULL
  /\ Db.anyNaN (Schema.goalsReals (Spec.mergedGoals env params s)) = true.
Proof.
  rewrite updateGoals_unfold. unfold bind.
  destruct (Db.upsertGoalsStmt_run _ s) as [[u|x] s1] eqn:E; [discriminate|].
  intros H. inversion H. subst. now apply upsertGoals_throws in E.
Qed.

Lemma updateGoals_keeps_wf (env : Env.t) (params : GoalsPartial.t) (s : Store.t) :
  Schema.wf s -> Schema.wf (snd (Db.updateGoals env params s)).
Proof.
  intros W. rewrite updateGoals_unfold. unfold bind.
  destruct (Db.upsertGoalsStmt_run _ s) as [[u|x] s1] eqn:E.
  - unfold ret. cbn [snd].
    pose proof E as E'. apply upsertGoals_returns in E'.
    destruct E' as (Hreal & Hfind & He & Hi & Hids & Hrows).
    destruct W as [W1 W2 W3 W4 W5 W6 W7]. split.
    + now rewrite He.
    + now rewrite Hi.
    + rewrite He, Hi. exact W3.
    + rewrite Hids. destruct (existsb _ (Store.goals s)) eqn:Ex; [assumption|].
      apply InsertInvariant.NoDup_snoc; [assumption|].
      now apply existsb_key_fresh in Ex.
    + rewrite He. exact W5.
    + rewrite Hi. exact W6.
    + intros r Hr. apply Hrows in Hr. destruct Hr as [->|Hr]; [|now apply W7].
      now apply (SqliteFacts.anyNaN_real (Schema.goalsReals (Spec.mergedGoals env params s))).
  - apply upsertGoals_throws in E. destruct E as (-> & _). exact W.
Qed.

End GoalsFacts.

(** ** The validation of update_nutrition_goals *)

Module UpdateGoalsFacts.
Import UpdateGoalsTool.

(** The loop, when no finite value is negative: every finite value is
    stored under its key. *)
Lemma collect_returns (params : Params) (ks : list string) :
  forall updates,
  (forall k v, In k ks -> Spec.supplied params k = Some v -> Js.lt v Js.zero = false) ->
  collect params ks updates
  = Return (fold_left (fun u k => match Spec.supplied params k with
                                  | Some v => set u k v
                                  | None => u
                                  end) ks updates).
Proof.
  induction ks as [|key ks IH]; intros updates H; simpl; [reflexivity|].
  fold (Spec.supplied params key). destruct (Spec.supplied params key) as [v|] eqn:E.
  - rewrite (H key v (or_introl eq_refl) E). apply IH.
    intros k w Hk. apply H. now right.
  - apply IH. intros k w Hk. apply H. now right.
Qed.

(** The loop, when some finite value is negative: it throws for the
    first such key. *)
Lemma collect_throws (params : Params) (ks : list string) :
  forall updates k v,
  In k ks -> Spec.supplied params k = Some v -> Js.lt v Js.zero = true ->
  exists k' v', In k' ks /\ Spec.supplied params k' = Some v' /\ Js.lt v' Js.zero = true
                /\ collect params ks updates
                   = Throw (Error (k' ++ " must be non-negative")).
Proof.
  induction ks as [|key ks IH]; intros updates k v Hk E L; simpl; [destruct Hk|].
  fold (Spec.supplied params key). destruct (Spec.supplied params key) as [w|] eqn:Ew.
  - destruct (Js.lt w Js.zero) eqn:Lw.
    + exists key, w. repeat split; try assumption. now left.
    + destruct Hk as [<-|Hk]; [congruence|].
      destruct (IH (set updates key w) k v Hk E L) as (k' & v' & Hk' & E' & L' & H).
      exists k', v'. repeat split; try assumption. now right.
  - destruct Hk as [<-|Hk]; [congruence|].
    destruct (IH updates k v Hk E L) as (k' & v' & Hk' & E' & L' & H).
    exists k', v'. repeat split; try assumption. now right.
Qed.

(** With the five keys of the tool, the object the loop builds reads
    back as the finite values that were supplied. *)
Lemma collected_asPartial (params : Params) :
  let updates := fold_left (fun u k => match Spec.supplied params k with
                                       | Some v => set u k v
                                       | None => u
                                       end) keys [] in
  asPartial updates
  = GoalsPartial.mk (Spec.supplied params "calories") (Spec.supplied params "protein")
      (Spec.supplied params "carbs") (Spec.supplied params "fat")
      (Spec.supplied params "fiber")
  /\ ((List.length updates =? 0)%nat = true <->
      forall k, In k keys -> Spec.supplied params k = None).
Proof.
  unfold keys. cbn [fold_left].
  destruct (Spec.supplied params "calories") as [v1|] eqn:E1;
    destruct (Spec.supplied params "protein") as [v2|] eqn:E2;
    destruct (Spec.supplied params "carbs") as [v3|] eqn:E3;
    destruct (Spec.supplied params "fat") as [v4|] eqn:E4;
    destruct (Spec.supplied params "fiber") as [v5|] eqn:E5;
    (split; [reflexivity|]);
    (split;
     [ intros H; try discriminate H;
       intros k [<-|[<-|[<-|[<-|[<-|[]]]]]]; assumption
     | intros H;
       try reflexivity;
       try (specialize (H "calories" (or_introl eq_refl)); congruence);
       try (specialize (H "protein" (or_intror (or_introl eq_refl))); congruence);
       try (specialize (H "carbs" (or_intror (or_intror (or_introl eq_refl))));
            congruence);
       try (specialize (H "fat"
              (or_intror (or_intror (or_intror (or_introl eq_refl))))); congruence);
       try (specialize (H "fiber"
              (or_intror (or_intror (or_intror (or_intror (or_introl eq_refl))))));
            congruence) ]).
Qed.

(** C5, as the specification has it, fails on both layers.
    [db.updateGoals] validates nothing: it accepts the empty update and
    a negative value.  The tool refuses a call that does supply a
    non-negative field as soon as another field is negative. *)
Lemma updateGoals_validation_differs :
  Db.updateGoals GoalsSample.clock GoalsPartial.empty Store.empty
  = (Return (Spec.baseline "2026-01-15T10:00:00.000Z"),
     Store.mk [] [] [Spec.baseline "2026-01-15T10:00:00.000Z"])
  /\ fst (Db.updateGoals GoalsSample.clock
            (GoalsPartial.mk (Some (-5)%float) None None None None) Store.empty)
     = Return (Goals.mk "default" (-5)%float 150%float 250%float 65%float 30%float
                 "2026-01-15T10:00:00.000Z")
  /\ execute GoalsSample.clock GoalsSample.mixed Store.empty
     = (Throw (Error "protein must be non-negative"), Store.empty).
Proof. repeat split. Qed.

(** C5, amended.  The tool throws, leaving the store alone, when any of
    the five parameters is a finite negative number, and when none of
    them is a finite number; otherwise it calls updateGoals with exactly
    the finite parameters.  updateGoals itself never throws a
    validation error. *)
Theorem execute_validation (env : Env.t) (params : Params) (s : Store.t) :
  (forall k v, In k keys -> Spec.supplied params k = Some v -> Js.lt v Js.zero = true ->
     exists k' v', In k' keys /\ Spec.supplied params k' = Some v'
                   /\ Js.lt v' Js.zero = true
                   /\ execute env params s
                      = (Throw (Error (k' ++ " must be non-negative")), s))
  /\ ((forall k, In k keys -> Spec.supplied params k = None) ->
      execute env params s
      = (Throw (Error "At least one goal value must be provided"), s))
  /\ ((forall k v, In k keys -> Spec.supplied params k = Some v ->
                   Js.lt v Js.zero = false) ->
      (exists k, In k keys /\ Spec.supplied params k <> None) ->
      execute env params s
      = Db.updateGoals env
          (GoalsPartial.mk (Spec.supplied params "calories")
             (Spec.supplied params "protein") (Spec.supplied params "carbs")
             (Spec.supplied params "fat") (Spec.supplied params "fiber")) s)
  /\ (forall partial message,
        fst (Db.updateGoals env partial s) <> Throw (Error message)).
Proof.
  pose proof (collected_asPartial params) as [Hpartial Hlen].
  repeat split.
  - intros k v Hk E L.
    destruct (collect_throws params keys [] k v Hk E L) as (k' & v' & Hk' & E' & L' & H).
    exists k', v'. repeat split; try assumption.
    unfold execute. now rewrite H.
  - intros Hnone. unfold execute. rewrite collect_returns.
    + apply Hlen in Hnone. now rewrite Hnone.
    + intros k v Hk E. rewrite (Hnone k Hk) in E. discriminate.
  - intros Hpos (k & Hk & Hsome). unfold execute.
    rewrite (collect_returns params keys [] Hpos).
    destruct (List.length _ =? 0)%nat eqn:El.
    + elim Hsome. exact (proj1 Hlen eq_refl k Hk).
    + now rewrite Hpartial.
  - intros partial message H.
    destruct (Db.updateGoals env partial s) as [[g|e] s'] eqn:E; [discriminate|].
    apply GoalsFacts.updateGoals_throws in E. destruct E as (_ & -> & _).
    simpl in H. discriminate.
Qed.

(** The tool on [{ fat: 70, note: "x" }] after the first update: only
    [fat] changes. *)
Example execute_only_fat :
  fst (execute GoalsSample.later GoalsSample.onlyFat GoalsSample.afterFirst)
  = Return (Goals.mk "default" 2500%float 180%float 250%float 70%float 30%float
              "2026-01-16T10:00:00.000Z").
Proof. reflexivity. Qed.

End UpdateGoalsFacts.

(** ** Ledger: range reads *)

Module RangeFacts.


Lemma StronglySorted_map {A B : Type} (f : A -> B) (R : B -> B -> Prop) (l : list A) :
  StronglySorted (fun x y => R (f x) (f y)) l -> StronglySorted R (map f l).
Proof.
  induction 1 as [|x l Hl IH Hx]; simpl; constructor; [assumption|].
  apply Forall_map. exact Hx.
Qed.

Lemma ltb_not_leb (a b : string) : String.ltb a b = true -> String.leb b a = false.
Proof.
  unfold String.ltb, String.leb. rewrite (String.compare_antisym a b).
  now destruct (String.compare b a).
Qed.


Lemma range_perm (s : Store.t) (from to : string) :
  Permutation (Db.getEntriesByDateRange s from to)
    (map (fun row => NutritionEntry.ofRow row (Db.itemsOf s (EntryRow.id row)))
         (filter (Db.inRange from to) (Store.entries s))).
Proof.
  unfold Db.getEntriesByDateRange, Db.orderByCreatedAt, Db.scanByDate.
  apply Permutation_map. now rewrite !SortingFacts.sortBy_perm.
Qed.

Lemma range_In (s : Store.t) (from to : string) (e : NutritionEntry.t) :
  In e (Db.getEntriesByDateRange s from to) <->
  exists row, In row (Store.entries s)
              /\ String.leb from (EntryRow.date row) = true
              /\ String.leb (EntryRow.date row) to = true
              /\ e = NutritionEntry.ofRow row (Db.itemsOf s (EntryRow.id row)).
Proof.
  split.
  - intros H. apply (Permutation_in _ (range_perm s from to)) in H.
    apply in_map_iff in H. destruct H as (row & <- & Hrow).
    apply filter_In in Hrow. destruct Hrow as [Hrow Hr].
    apply andb_true_iff in Hr. destruct Hr. now exists row.
  - intros (row & Hrow & H1 & H2 & ->).
    apply (Permutation_in _ (Permutation_sym (range_perm s from to))).
    apply in_map_iff. exists row. split; [reflexivity|].
    apply filter_In. split; [assumption|]. unfold Db.inRange. now rewrite H1, H2.
Qed.

Lemma range_none (s : Store.t) (from to : string) :
  (forall row, In row (Store.entries s) -> Db.inRange from to row = false) ->
  Db.getEntriesByDateRange s from to = [].
Proof.
  intros Hnone. unfold Db.getEntriesByDateRange, Db.scanByDate.
  rewrite Ledger.filter_none by exact Hnone. reflexivity.
Qed.

(** Two entries created in the same millisecond, the one of the later
    day inserted first: the scan of the date index hands the earlier day
    over first, and ORDER BY keeps that order among equal keys. *)
Example getEntriesByDateRange_same_instant :
  let now := "2026-01-16T12:00:00.000Z" in
  let s := RangeSample.exec (Db.insertEntry (Sample.env "t" now) RangeSample.targetDay)
             (RangeSample.exec (Db.insertEntry (Sample.env "s" now) RangeSample.dayAfter)
                Store.empty) in
  map EntryRow.id (Store.entries s) = ["s0"; "t0"]
  /\ map NutritionEntry.id (Db.getEntriesByDateRange s "2026-01-01" "2026-12-31")
     = ["t0"; "s0"].
Proof. split; reflexivity. Qed.


(** The range test: of three consecutive days, the range from the first
    to the second returns the first two entries, oldest first. *)
Example getEntriesByDateRange_two_of_three :
  map NutritionEntry.date
      (Db.getEntriesByDateRange RangeSample.threeDays "2026-01-14" "2026-01-15")
  = ["2026-01-14"; "2026-01-15"]
  /\ map NutritionEntry.raw_input
         (Db.getEntriesByDateRange RangeSample.threeDays "2026-01-15" "2026-01-14")
     = [].
Proof. split; reflexivity. Qed.

End RangeFacts.

(** ** Ledger: deleteEntry *)

Module DeleteFacts.
Import InsertFacts.

Lemma store_eta (s : Store.t) :
  Store.mk (Store.entries s) (Store.items s) (Store.goals s) = s.
Proof. now destruct s. Qed.

Lemma filter_nil_iff {A : Type} (p : A -> bool) (l : list A) :
  filter p l = [] <-> existsb p l = false.
Proof.
  induction l as [|x l IH]; simpl; [tauto|].
  destruct (p x); simpl; [split; discriminate|exact IH].
Qed.

Lemma filter_length_lt {A : Type} (p : A -> bool) (l : list A) :
  existsb (fun x => negb (p x)) l = true ->
  (List.length (filter p l) < List.length l)%nat.
Proof.
  induction l as [|x l IH]; simpl; [discriminate|].
  pose proof (filter_length_le p l) as Hle.
  destruct (p x); simpl; intros H; [|lia].
  apply IH in H. lia.
Qed.

(** The rows [deleteEntry id] deletes. *)
Lemma deleted_rows (s : Store.t) (id : string) :
  filter (fun e => EntryRow.id e =? id) (Store.entries s) = [] <->
  ~ In id (map EntryRow.id (Store.entries s)).
Proof. rewrite filter_nil_iff. apply existsb_key_fresh. Qed.

(** An item goes exactly when a row was deleted and the item is owned
    by the deleted identifier. *)
Lemma cascade (s : Store.t) (id : string) (i : NutritionItem.t) :
  existsb (fun e => EntryRow.id e =? NutritionItem.entry_id i)
          (filter (fun e => EntryRow.id e =? id) (Store.entries s)) = true
  <-> In id (map EntryRow.id (Store.entries s)) /\ NutritionItem.entry_id i = id.
Proof.
  rewrite existsb_exists. split.
  - intros (e & He & E). apply filter_In in He. destruct He as [He Hid].
    apply String.eqb_eq in E, Hid. split; [|congruence].
    rewrite <- Hid. now apply in_map.
  - intros [Hin E]. apply in_map_iff in Hin. destruct Hin as (e & Hid & He).
    exists e. split.
    + apply filter_In. split; [assumption|]. now apply String.eqb_eq.
    + apply String.eqb_eq. congruence.
Qed.

(** C7. deleteEntry never throws.  It answers [true] exactly when an
    entry row carried the identifier, which is exactly when the
    [entries] table got shorter; on [false] the store is unchanged;
    afterwards getEntry finds nothing under the identifier, and after a
    [true] no item row refers to it.  Rows of other entries stay. *)
Theorem deleteEntry_cascade (id : string) (s : Store.t) :
  let s' := snd (Db.deleteEntry id s) in
  exists removed : bool,
    fst (Db.deleteEntry id s) = Return removed
    /\ (removed = true <-> In id (map EntryRow.id (Store.entries s)))
    /\ (removed = true <->
        (List.length (Store.entries s') < List.length (Store.entries s))%nat)
    /\ (removed = false -> s' = s)
    /\ Db.getEntry s' id = None
    /\ (removed = true ->
        forall i, In i (Store.items s') -> NutritionItem.entry_id i <> id)
    /\ (forall e, In e (Store.entries s') <->
                  In e (Store.entries s) /\ EntryRow.id e <> id)
    /\ (forall i, In i (Store.items s) -> NutritionItem.entry_id i <> id ->
                  In i (Store.items s'))
    /\ Store.goals s' = Store.goals s.
Proof.
  intros s'. eexists. split; [reflexivity|].
  unfold s', Db.deleteEntry. cbn [fst snd Store.entries Store.items Store.goals].
  set (deleted := filter (fun e => EntryRow.id e =? id) (Store.entries s)).
  assert (Hdel : (0 <? List.length deleted)%nat = true
                 <-> In id (map EntryRow.id (Store.entries s))).
  { rewrite Nat.ltb_lt. destruct deleted as [|d l] eqn:E; simpl.
    - apply deleted_rows in E. split; [lia|contradiction].
    - split; [|lia]. intros _.
      destruct (existsb (fun e => EntryRow.id e =? id) (Store.entries s)) eqn:Ex.
      + now apply existsb_key_In in Ex.
      + apply filter_nil_iff in Ex. fold deleted in Ex. congruence. }
  assert (Hkeep : forall i, In i (Store.items s) ->
            (negb (existsb (fun e => EntryRow.id e =? NutritionItem.entry_id i) deleted)
             = true <->
             ~ (In id (map EntryRow.id (Store.entries s))
                /\ NutritionItem.entry_id i = id))).
  { intros i _. rewrite negb_true_iff, <- not_true_iff_false.
    unfold deleted. now rewrite cascade. }
  split; [exact Hdel|].
  split; [|split; [|split; [|split; [|split; [|split]]]]].
  - rewrite Hdel. split.
    + intros H. apply filter_length_lt.
      apply existsb_key_In in H. rewrite <- H. clear.
      induction (Store.entries s) as [|e l IH]; simpl; [reflexivity|].
      rewrite negb_involutive. now rewrite IH.
    + intros H.
      destruct (existsb (fun e => EntryRow.id e =? id) (Store.entries s)) eqn:Ex;
        [now apply existsb_key_In in Ex|].
      rewrite Ledger.filter_all in H; [lia|].
      apply Forall_forall. intros e He. apply negb_true_iff.
      rewrite <- not_true_iff_false. intros E.
      assert (existsb (fun e => EntryRow.id e =? id) (Store.entries s) = true)
        by (apply existsb_exists; now exists e).
      congruence.
  - intros H.
    assert (Hnot : ~ In id (map EntryRow.id (Store.entries s))).
    { intros Hin. apply Hdel in Hin. congruence. }
    transitivity (Store.mk (Store.entries s) (Store.items s) (Store.goals s));
      [|apply store_eta]. f_equal.
    + apply Ledger.filter_all. apply Forall_forall. intros e He.
      apply negb_true_iff, String.eqb_neq. intros E. apply Hnot.
      rewrite <- E. now apply in_map.
    + apply Ledger.filter_all. apply Forall_forall. intros i Hi.
      apply (Hkeep i Hi). tauto.
  - unfold Db.getEntry. cbn [Store.entries].
    destruct (find _ _) as [row|] eqn:E; [|reflexivity].
    apply find_some in E. destruct E as [E1 E2]. apply filter_In in E1.
    destruct E1 as [_ E1]. now rewrite E2 in E1.
  - intros H i Hi E. apply Hdel in H. apply filter_In in Hi.
    destruct Hi as [Hi Hk]. apply (Hkeep i Hi) in Hk. tauto.
  - intros e. rewrite filter_In, negb_true_iff, String.eqb_neq. tauto.
  - intros i Hi Hne. apply filter_In. split; [assumption|].
    apply (Hkeep i Hi). tauto.
  - reflexivity.
Qed.

(** The tests "deletes an existing entry and its items" and "returns
    false for non-existent entry". *)
Example deleteEntry_tests :
  Db.deleteEntry "a0" Sample.afterBreakfast = (Return true, Store.empty)
  /\ Db.deleteEntry "non-existent" Sample.afterBreakfast
     = (Return false, Sample.afterBreakfast).
Proof. split; reflexivity. Qed.

(** Deleting rows keeps a key column free of duplicates. *)
Lemma NoDup_map_filter {Row Key : Type} (key : Row -> Key) (keep : Row -> bool) :
  forall rows : list Row,
  NoDup (map key rows) -> NoDup (map key (filter keep rows)).
Proof.
  intros rows. induction rows as [|r rows IH]; simpl; intros Hrows.
  - constructor.
  - apply NoDup_cons_iff in Hrows. destruct Hrows as [Hr Hrest].
    destruct (keep r); simpl; [|now apply IH].
    constructor; [|now apply IH].
    intros Hin. apply Hr. apply in_map_iff in Hin. destruct Hin as (r' & E & Hr').
    apply filter_In in Hr'. rewrite <- E. apply in_map. tauto.
Qed.

Lemma deleteEntry_keeps_wf (id : string) (s : Store.t) :
  Schema.wf s -> Schema.wf (snd (Db.deleteEntry id s)).
Proof.
  intros [W1 W2 W3 W4 W5 W6 W7]. unfold Db.deleteEntry.
  split; cbn [snd Store.entries Store.items Store.goals].
  - now apply NoDup_map_filter.
  - now apply NoDup_map_filter.
  - intros i Hi. apply filter_In in Hi. destruct Hi as [Hi Hown].
    apply negb_true_iff in Hown. rewrite <- not_true_iff_false in Hown.
    pose proof (W3 i Hi) as Hfk. apply in_map_iff in Hfk.
    destruct Hfk as (e & E & He). apply in_map_iff. exists e. split; [assumption|].
    apply filter_In. split; [assumption|]. apply negb_true_iff, String.eqb_neq.
    intros Hid. apply Hown. apply cascade. split; [|congruence].
    rewrite <- Hid. now apply in_map.
  - assumption.
  - intros e He. apply filter_In in He. now apply W5.
  - intros i Hi. apply filter_In in Hi. now apply W6.
  - assumption.
Qed.

End DeleteFacts.

(** ** Aggregator: getDailySummary *)

Module SummaryFacts.

Lemma totalOf_is_sum (f : NutritionEntry.t -> Js.number) (entries : list NutritionEntry.t) :
  Db.totalOf f entries = Spec.sum (map f entries).
Proof.
  unfold Db.totalOf, Spec.sum. generalize Js.zero.
  induction entries as [|e entries IH]; intros acc; simpl; [reflexivity|apply IH].
Qed.

(** A one-day range holds the entries of that day and no other. *)
Lemma single_day (s : Store.t) (date : string) (e : NutritionEntry.t) :
  In e (Db.getEntriesByDateRange s date date) -> NutritionEntry.date e = date.
Proof.
  intros H. apply RangeFacts.range_In in H.
  destruct H as (row & _ & H1 & H2 & ->). cbn.
  apply StringOrder.between_same. now rewrite H1, H2.
Qed.

(** C10. The summary is consistent with itself: its entry count is the
    length of its entry list, each of its five totals is the plain
    floating sum of the stored total of the entries in that list, and
    that list is the one-day range of the date, each entry carrying
    that date. *)
Theorem getDailySummary_consistent (s : Store.t) (date : string) :
  let summary := Db.getDailySummary s date in
  let entries := DailySummary.entries summary in
  DailySummary.entry_count summary = List.length entries
  /\ DailySummary.total_calories summary
     = Spec.sum (map NutritionEntry.total_calories entries)
  /\ DailySummary.total_protein summary
     = Spec.sum (map NutritionEntry.total_protein entries)
  /\ DailySummary.total_carbs summary
     = Spec.sum (map NutritionEntry.total_carbs entries)
  /\ DailySummary.total_fat summary
     = Spec.sum (map NutritionEntry.total_fat entries)
  /\ DailySummary.total_fiber summary
     = Spec.sum (map NutritionEntry.total_fiber entries)
  /\ entries = Db.getEntriesByDateRange s date date
  /\ (forall e, In e entries -> NutritionEntry.date e = date)
  /\ DailySummary.date summary = date
  /\ DailySummary.goals summary = Db.getGoals s.
Proof.
  cbv zeta. unfold Db.getDailySummary.
  cbn [DailySummary.entry_count DailySummary.entries DailySummary.total_calories
       DailySummary.total_protein DailySummary.total_carbs DailySummary.total_fat
       DailySummary.total_fiber DailySummary.date DailySummary.goals].
  rewrite !totalOf_is_sum. repeat split. apply single_day.
Qed.

(** C8. A date that no stored entry carries has the all-zero summary:
    five totals 0, count 0, no entries; the goals are still attached. *)
Theorem getDailySummary_no_entries (s : Store.t) (date : string) :
  (forall row, In row (Store.entries s) -> EntryRow.date row <> date) ->
  Db.getDailySummary s date
  = {| DailySummary.date := date;
       DailySummary.total_calories := 0%float;
       DailySummary.total_protein := 0%float;
       DailySummary.total_carbs := 0%float;
       DailySummary.total_fat := 0%float;
       DailySummary.total_fiber := 0%float;
       DailySummary.entry_count := 0;
       DailySummary.entries := [];
       DailySummary.goals := Db.getGoals s |}.
Proof.
  intros Hnone.
  assert (E : Db.getEntriesByDateRange s date date = []).
  { apply RangeFacts.range_none.
    intros row Hrow. apply not_true_iff_false. intros H.
    apply StringOrder.between_same in H. now apply (Hnone row). }
  unfold Db.getDailySummary. now rewrite E.
Qed.

(** The test "returns zero totals for day with no entries", on the
    store of the range test. *)
Lemma getDailySummary_no_entries_witness :
  Db.getDailySummary RangeSample.threeDays "2099-12-31"
  = {| DailySummary.date := "2099-12-31";
       DailySummary.total_calories := 0%float;
       DailySummary.total_protein := 0%float;
       DailySummary.total_carbs := 0%float;
       DailySummary.total_fat := 0%float;
       DailySummary.total_fiber := 0%float;
       DailySummary.entry_count := 0;
       DailySummary.entries := [];
       DailySummary.goals := None |}.
Proof.
  apply (getDailySummary_no_entries RangeSample.threeDays "2099-12-31").
  intros row H. vm_compute in H.
  destruct H as [<-|[<-|[<-|[]]]]; discriminate.
Defined.

(** The scenario of the specification: the middle day of the range
    test has one entry of 260 kcal. *)
Example getDailySummary_target_day :
  let summary := Db.getDailySummary RangeSample.threeDays "2026-01-15" in
  DailySummary.total_calories summary = 260%float
  /\ DailySummary.entry_count summary = 1.
Proof. split; reflexivity. Qed.

End SummaryFacts.

(** ** Aggregator: the range summary *)

Module RangeSummaryFacts.
Import GetSummaryTool Grouping InsertFacts.

(** Each accumulator of a day is the running floating sum of its field. *)
Lemma fold_add_fields (grp : list NutritionEntry.t) :
  forall t,
  let t' := fold_left Totals.add grp t in
  Totals.calories t'
  = fold_left Js.add (map NutritionEntry.total_calories grp) (Totals.calories t)
  /\ Totals.protein t'
     = fold_left Js.add (map NutritionEntry.total_protein grp) (Totals.protein t)
  /\ Totals.carbs t'
     = fold_left Js.add (map NutritionEntry.total_carbs grp) (Totals.carbs t)
  /\ Totals.fat t'
     = fold_left Js.add (map NutritionEntry.total_fat grp) (Totals.fat t)
  /\ Totals.fiber t'
     = fold_left Js.add (map NutritionEntry.total_fiber grp) (Totals.fiber t)
  /\ Totals.count t' = (Totals.count t + List.length grp)%nat.
Proof.
  induction grp as [|e grp IH]; intros t; simpl.
  - repeat split. lia.
  - specialize (IH (Totals.add t e)). cbv zeta in IH.
    destruct IH as (H1 & H2 & H3 & H4 & H5 & H6).
    rewrite H1, H2, H3, H4, H5, H6. simpl. repeat split. lia.
Qed.

Lemma group_snoc (es : list NutritionEntry.t) (e : NutritionEntry.t) (d : string) :
  group (es ++ [e]) d
  = group es d ++ (if NutritionEntry.date e =? d then [e] else []).
Proof. unfold group. rewrite filter_app. reflexivity. Qed.

Lemma group_empty (es : list NutritionEntry.t) (d : string) :
  ~ In d (map NutritionEntry.date es) -> group es d = [].
Proof.
  intros H. apply Ledger.filter_none. intros e He. apply String.eqb_neq.
  intros E. apply H. rewrite <- E. now apply in_map.
Qed.

Lemma group_nonempty (es : list NutritionEntry.t) (d : string) :
  In d (map NutritionEntry.date es) -> (0 < List.length (group es d))%nat.
Proof.
  intros H. apply in_map_iff in H. destruct H as (e & E & He).
  assert (Hin : In e (group es d)).
  { apply filter_In. split; [assumption|]. now apply String.eqb_eq. }
  destruct (group es d); [destruct Hin|simpl; lia].
Qed.

Lemma accumulate_grouped (es : list NutritionEntry.t) (byDate : ByDate)
    (e : NutritionEntry.t) :
  inherited (NutritionEntry.date e) = false ->
  grouped es byDate -> grouped (es ++ [e]) (accumulate byDate e).
Proof.
  intros Hplain [Hnd Hkeys Htot]. unfold accumulate. rewrite Hplain.
  set (key := NutritionEntry.date e).
  destruct (hasOwn byDate key) eqn:Hown; unfold hasOwn in Hown.
  - apply existsb_key_In in Hown.
    assert (Hfst : map fst (map (fun kv => if fst kv =? key
                                           then (fst kv, Totals.add (snd kv) e)
                                           else kv) byDate) = map fst byDate).
    { rewrite map_map. apply map_ext. intros kv. now destruct (fst kv =? key). }
    split.
    + now rewrite Hfst.
    + intros d. rewrite Hfst, map_app, in_app_iff, Hkeys. simpl.
      split; [tauto|]. intros [H|[<-|[]]]; [assumption|]. now apply Hkeys.
    + intros kv Hkv. apply in_map_iff in Hkv. destruct Hkv as (kv0 & <- & Hkv0).
      rewrite group_snoc. fold key.
      destruct (fst kv0 =? key) eqn:E; cbn [fst snd].
      * apply String.eqb_eq in E. rewrite E, String.eqb_refl.
        rewrite fold_left_app. simpl. f_equal. rewrite <- E. now apply Htot.
      * rewrite String.eqb_sym, E, app_nil_r. now apply Htot.
  - apply existsb_key_fresh in Hown. split.
    + rewrite map_app. simpl. now apply InsertInvariant.NoDup_snoc.
    + intros d. rewrite !map_app, !in_app_iff, Hkeys. reflexivity.
    + intros kv Hkv. rewrite group_snoc. fold key.
      apply in_app_or in Hkv. destruct Hkv as [Hkv|[<-|[]]].
      * assert (E : (key =? fst kv) = false).
        { apply String.eqb_neq. intros E. apply Hown. rewrite E. now apply in_map. }
        rewrite E, app_nil_r. now apply Htot.
      * cbn [fst snd]. rewrite String.eqb_refl, group_empty; [reflexivity|].
        intros H. apply Hown. now apply Hkeys.
Qed.

Lemma loop_grouped (es : list NutritionEntry.t) :
  plainDates es -> grouped es (fold_left accumulate es []).
Proof.
  induction es as [|e es IH] using rev_ind; intros Hplain.
  - split; simpl; [constructor|tauto|intros ? []].
  - apply Forall_app in Hplain. destruct Hplain as [Hes He].
    rewrite fold_left_app. simpl. apply accumulate_grouped.
    + now inversion He.
    + now apply IH.
Qed.

Lemma partition_perm {A : Type} (p : A -> bool) (l : list A) :
  Permutation (filter p l ++ filter (fun x => negb (p x)) l) l.
Proof.
  induction l as [|x l IH]; simpl; [reflexivity|].
  destruct (p x); simpl.
  - now constructor.
  - rewrite <- Permutation_middle. now constructor.
Qed.

Lemma Object_entries_perm (byDate : ByDate) : Permutation (Object_entries byDate) byDate.
Proof.
  unfold Object_entries. rewrite SortingFacts.sortBy_perm. apply partition_perm.
Qed.

Lemma sortedEntries_perm (localeCompare : string -> string -> Z) (byDate : ByDate) :
  Permutation (sortedEntries localeCompare byDate) byDate.
Proof.
  unfold sortedEntries. rewrite SortingFacts.sortBy_perm. apply Object_entries_perm.
Qed.

Lemma totalOf_days_sum (f : Day.t -> Js.number) (days : list Day.t) :
  totalOf f days = Spec.sum (map f days).
Proof.
  unfold totalOf, Spec.sum. generalize Js.zero.
  induction days as [|d days IH]; intros acc; simpl; [reflexivity|apply IH].
Qed.

Lemma nodup_same_length (l1 l2 : list string) :
  NoDup l1 -> (forall d, In d l1 <-> In d l2) ->
  List.length l1 = List.length (nodup string_dec l2).
Proof.
  intros Hnd Hin. apply Permutation_length.
  apply NoDup_Permutation; [assumption|apply NoDup_nodup|].
  intros d. rewrite nodup_In. apply Hin.
Qed.

(** A range without entries: no day, zero totals, zero averages. *)
Lemma rangeSummary_empty (localeCompare : string -> string -> Z)
    (s : Store.t) (from to : string) :
  Db.getEntriesByDateRange s from to = [] ->
  rangeSummary localeCompare s from to
  = Details.mk from to []
      (Macros.mk 0%float 0%float 0%float 0%float 0%float)
      (Macros.mk 0%float 0%float 0%float 0%float 0%float)
      (Db.getGoals s).
Proof. intros H. unfold rangeSummary. rewrite H. reflexivity. Qed.

(** C9, as the specification has it, fails: the averages are rounded.
    On the store of the range test, the two days from 2026-01-15 hold
    5 g and 8 g of protein; the period total is 13, the day count 2, and
    the reported average is 7, not 13 / 2 = 6.5. *)
Lemma rangeSummary_average_rounded :
  let details :=
    rangeSummary Collation.byteCompare RangeSample.threeDays "2026-01-15" "2026-01-16" in
  map Day.date (Details.days details) = ["2026-01-15"; "2026-01-16"]
  /\ Macros.protein (Details.totals details) = 13%float
  /\ Js.div (Macros.protein (Details.totals details))
            (Js.ofNat (List.length (Details.days details))) = 6.5%float
  /\ Macros.protein (Details.averages details) = 7%float
  /\ Macros.protein (Details.averages details)
     <> Js.div (Macros.protein (Details.totals details))
               (Js.ofNat (List.length (Details.days details))).
Proof.
  cbv zeta. repeat split.
  intros H. apply (f_equal (fun x => PrimFloat.eqb x 7%float)) in H.
  vm_compute in H. discriminate H.
Qed.

(** C9, amended.  For entries with plain dates, the range summary has
    one day per distinct date of the entries of the range; a day's five
    sums and count are those of the entries carrying its date, so no
    day is empty; the period totals are the sums over the days; and
    each average is [Math.round] of the period total divided by the
    number of days, or by 1 when there is none, which gives zero. *)
Theorem rangeSummary_groups (localeCompare : string -> string -> Z)
    (s : Store.t) (from to : string) :
  let entries := Db.getEntriesByDateRange s from to in
  let details := rangeSummary localeCompare s from to in
  let days := Details.days details in
  let totals := Details.totals details in
  let divisor := Js.ofNat (match distinctDays entries with 0 => 1 | n => n end) in
  plainDates entries ->
  NoDup (map Day.date days)
  /\ (forall d, In d (map Day.date days) <-> In d (map NutritionEntry.date entries))
  /\ List.length days = distinctDays entries
  /\ (forall day, In day days ->
        let members := group entries (Day.date day) in
        Day.calories day = Spec.sum (map NutritionEntry.total_calories members)
        /\ Day.protein day = Spec.sum (map NutritionEntry.total_protein members)
        /\ Day.carbs day = Spec.sum (map NutritionEntry.total_carbs members)
        /\ Day.fat day = Spec.sum (map NutritionEntry.total_fat members)
        /\ Day.fiber day = Spec.sum (map NutritionEntry.total_fiber members)
        /\ Day.count day = List.length members
        /\ (0 < Day.count day)%nat)
  /\ totals = Macros.mk (Spec.sum (map Day.calories days)) (Spec.sum (map Day.protein days))
                (Spec.sum (map Day.carbs days)) (Spec.sum (map Day.fat days))
                (Spec.sum (map Day.fiber days))
  /\ Details.averages details
     = Macros.mk (Js.Math_round (Js.div (Macros.calories totals) divisor))
         (Js.Math_round (Js.div (Macros.protein totals) divisor))
         (Js.Math_round (Js.div (Macros.carbs totals) divisor))
         (Js.Math_round (Js.div (Macros.fat totals) divisor))
         (Js.Math_round (Js.div (Macros.fiber totals) divisor))
  /\ (entries = [] ->
      days = []
      /\ totals = Macros.mk 0%float 0%float 0%float 0%float 0%float
      /\ Details.averages details = Macros.mk 0%float 0%float 0%float 0%float 0%float).
Proof.
  intros entries details days totals divisor Hplain.
  pose proof (loop_grouped entries Hplain) as [Hnd Hkeys Htot].
  set (byDate := fold_left accumulate entries []) in *.
  assert (Hdays : days = map Day.ofEntry (sortedEntries localeCompare byDate))
    by reflexivity.
  assert (Hdates : Permutation (map Day.date days) (map fst byDate)).
  { rewrite Hdays, map_map. cbn [Day.date Day.ofEntry].
    apply Permutation_map, sortedEntries_perm. }
  assert (Hsame : forall d, In d (map Day.date days)
                            <-> In d (map NutritionEntry.date entries)).
  { intros d. rewrite <- Hkeys. split; apply Permutation_in;
      [exact Hdates|exact (Permutation_sym Hdates)]. }
  assert (Hnodup : NoDup (map Day.date days)).
  { apply (Permutation_NoDup (Permutation_sym Hdates)). exact Hnd. }
  assert (Hlen : List.length days = distinctDays entries).
  { rewrite <- (length_map Day.date). now apply nodup_same_length. }
  split; [exact Hnodup|]. split; [exact Hsame|]. split; [exact Hlen|].
  split; [|split; [|split]].
  - intros day Hday members. rewrite Hdays in Hday. apply in_map_iff in Hday.
    destruct Hday as (kv & <- & Hkv).
    apply (Permutation_in _ (sortedEntries_perm localeCompare byDate)) in Hkv.
    pose proof (Htot kv Hkv) as Hs.
    pose proof (fold_add_fields (group entries (fst kv)) Totals.zero) as Hf.
    cbv zeta in Hf. rewrite <- Hs in Hf. destruct Hf as (H1 & H2 & H3 & H4 & H5 & H6).
    unfold members. cbn [Day.ofEntry Day.date Day.calories Day.protein Day.carbs
                         Day.fat Day.fiber Day.count].
    rewrite H1, H2, H3, H4, H5, H6. repeat split.
    cbn [Totals.zero Totals.count Nat.add]. apply group_nonempty.
    apply Hkeys. apply in_map_iff. now exists kv.
  - unfold totals, details, rangeSummary. cbn [Details.totals].
    now rewrite !totalOf_days_sum.
  - unfold divisor. rewrite <- Hlen. reflexivity.
  - intros Hnil. unfold totals, days, details.
    rewrite (rangeSummary_empty localeCompare s from to Hnil). repeat split.
Qed.

(** The three days of the range test. *)
Lemma rangeSummary_groups_witness :
  let details :=
    rangeSummary Collation.byteCompare RangeSample.threeDays "2026-01-14" "2026-01-16" in
  NoDup (map Day.date (Details.days details))
  /\ List.length (Details.days details) = 3
  /\ Details.totals details
     = Macros.mk 869%float 30%float 167%float 0x1.199999999999ap+3%float
         0x1.c333333333333p+3%float
  /\ Details.averages details
     = Macros.mk 290%float 10%float 56%float 3%float 5%float.
Proof.
  pose proof (rangeSummary_groups Collation.byteCompare RangeSample.threeDays
                "2026-01-14" "2026-01-16") as H.
  cbv zeta in H.
  assert (Hplain : plainDates
            (Db.getEntriesByDateRange RangeSample.threeDays "2026-01-14" "2026-01-16")).
  { vm_compute. repeat constructor. }
  destruct (H Hplain) as (Hnd & _ & Hlen & _ & Htot & Havg & _).
  cbv zeta. split; [exact Hnd|]. split; [exact Hlen|]. split; reflexivity.
Defined.

(** An entry dated [constructor] is in the range and in no day. *)
Example rangeSummary_inherited_key :
  let s := RangeSample.exec
             (Db.insertEntry (Sample.env "c" "2026-01-16T12:00:03.000Z")
                (Db.InsertParams.mk "constructor" "text" "odd" [Sample.eggs]))
             Store.empty in
  List.length (Db.getEntriesByDateRange s "a" "z") = 1
  /\ Details.days (rangeSummary Collation.byteCompare s "a" "z") = [].
Proof. split; reflexivity. Qed.

End RangeSummaryFacts.

(** ** Lookups, frames and round trips of the ledger *)

Module StoreFacts.
Import InsertFacts.

Lemma find_none_iff {A : Type} (p : A -> bool) (l : list A) :
  find p l = None <-> existsb p l = false.
Proof.
  induction l as [|x l IH]; simpl; [tauto|].
  destruct (p x); simpl; [split; discriminate|exact IH].
Qed.

Lemma getEntry_none_iff (s : Store.t) (id : string) :
  Db.getEntry s id = None <-> ~ In id (map EntryRow.id (Store.entries s)).
Proof.
  rewrite <- existsb_key_fresh, <- find_none_iff. unfold Db.getEntry.
  destruct (find _ _); split; congruence.
Qed.

Lemma find_snoc_other {A : Type} (p : A -> bool) (l : list A) (x : A) :
  p x = false -> find p (l ++ [x]) = find p l.
Proof.
  intros Hx. induction l as [|y l IH]; simpl; [now rewrite Hx|].
  now destruct (p y).
Qed.

Lemma deleteEntry_absent (s : Store.t) (id : string) :
  ~ In id (map EntryRow.id (Store.entries s)) ->
  Db.deleteEntry id s = (Return false, s).
Proof.
  intros Hnot. unfold Db.deleteEntry.
  rewrite (proj2 (DeleteFacts.deleted_rows s id) Hnot). simpl.
  f_equal. transitivity (Store.mk (Store.entries s) (Store.items s) (Store.goals s));
    [|apply DeleteFacts.store_eta]. f_equal.
  - apply Ledger.filter_all. apply Forall_forall. intros e He.
    apply negb_true_iff, String.eqb_neq. intros E. apply Hnot.
    rewrite <- E. now apply in_map.
  - apply Ledger.filter_all. now apply Forall_forall.
Qed.

Lemma deleteEntry_present (s : Store.t) (id : string) :
  In id (map EntryRow.id (Store.entries s)) ->
  fst (Db.deleteEntry id s) = Return true.
Proof.
  intros Hin. unfold Db.deleteEntry. cbn [fst].
  destruct (filter _ (Store.entries s)) eqn:E; [|reflexivity].
  now apply DeleteFacts.deleted_rows in E.
Qed.

Lemma deleteEntry_gone (s : Store.t) (id : string) :
  ~ In id (map EntryRow.id (Store.entries (snd (Db.deleteEntry id s)))).
Proof.
  unfold Db.deleteEntry. cbn [snd Store.entries]. intros H.
  apply in_map_iff in H. destruct H as (e & E & He). apply filter_In in He.
  destruct He as [_ He]. apply negb_true_iff, String.eqb_neq in He. contradiction.
Qed.

(** X1. getEntry finds nothing exactly for an identifier no entry row
    carries; what it finds carries the identifier asked for, and its
    items are exactly the item rows that refer to it. *)
Theorem getEntry_lookup (s : Store.t) (id : string) :
  (Db.getEntry s id = None <-> ~ In id (map EntryRow.id (Store.entries s)))
  /\ (forall e, Db.getEntry s id = Some e ->
        NutritionEntry.id e = id
        /\ (forall i, In i (NutritionEntry.items e) <->
                      In i (Store.items s) /\ NutritionItem.entry_id i = id)).
Proof.
  split; [apply getEntry_none_iff|].
  unfold Db.getEntry. intros e.
  destruct (find _ _) as [row|] eqn:E; [|discriminate].
  intros H. inversion H. subst e. clear H. apply find_some in E.
  destruct E as [_ E]. apply String.eqb_eq in E. split; [exact E|].
  intros i. cbn [NutritionEntry.items NutritionEntry.ofRow]. unfold Db.itemsOf.
  rewrite filter_In. now rewrite String.eqb_eq.
Qed.

(** X2. Frame of insertEntry: when it returns, every other identifier
    reads as before (present with the same items, or absent), and the
    goals are untouched. *)
Theorem insertEntry_frame (env : Env.t) (params : Db.InsertParams.t)
    (s s' : Store.t) (e : NutritionEntry.t) (id : string) :
  Db.insertEntry env params s = (Return e, s') ->
  id <> NutritionEntry.id e ->
  Db.getEntry s' id = Db.getEntry s id /\ Db.getGoals s' = Db.getGoals s.
Proof.
  intros H Hid. apply insertEntry_returns in H. cbv zeta in H.
  destruct H as (-> & -> & _). cbn [NutritionEntry.id NutritionEntry.ofRow] in Hid.
  split; [|reflexivity].
  unfold Db.getEntry, Db.itemsOf. cbn [Store.entries Store.items].
  rewrite find_snoc_other
    by (apply String.eqb_neq; cbn [EntryRow.id EntryRow.stored]; congruence).
  rewrite filter_app, (Ledger.filter_none _ (map NutritionItem.stored _)), app_nil_r;
    [reflexivity|].
  intros i Hi. apply in_map_iff in Hi. destruct Hi as (i0 & <- & Hi0).
  cbn [NutritionItem.entry_id NutritionItem.stored].
  apply String.eqb_neq. intros E. apply Hid. rewrite <- E.
  pose proof (itemRows_owner (Env.randomUUID env)
                (EntryRow.id (Inserted.entryRow env params)) (Db.InsertParams.items params) 1)
    as Hown.
  rewrite Forall_forall in Hown. now apply Hown.
Qed.

(** A second, two-item entry logged into a store that holds the
    breakfast and a goals record. *)
Lemma insertEntry_frame_witness :
  Db.getEntry
    (RangeSample.exec
       (Db.insertEntry (Sample.env "b" "2026-01-15T09:00:00.000Z") Sample.breakfast)
       (Store.mk [Sample.breakfastRow] Sample.breakfastItems
                 (Store.goals GoalsSample.afterFirst))) "a0"
  = Db.getEntry
      (Store.mk [Sample.breakfastRow] Sample.breakfastItems
                (Store.goals GoalsSample.afterFirst)) "a0"
  /\ Db.getGoals
       (RangeSample.exec
          (Db.insertEntry (Sample.env "b" "2026-01-15T09:00:00.000Z") Sample.breakfast)
          (Store.mk [Sample.breakfastRow] Sample.breakfastItems
                    (Store.goals GoalsSample.afterFirst)))
     = Db.getGoals
         (Store.mk [Sample.breakfastRow] Sample.breakfastItems
                   (Store.goals GoalsSample.afterFirst)).
Proof.
  eapply (insertEntry_frame (Sample.env "b" "2026-01-15T09:00:00.000Z") Sample.breakfast
            _ _ _ "a0").
  - reflexivity.
  - cbv. discriminate.
Defined.

(** X3. Insert, then delete: in a store that respects the schema,
    deleting the entry insertEntry has just returned answers [true] and
    gives back the store as it was before the insertion. *)
Theorem insertEntry_then_deleteEntry (env : Env.t) (params : Db.InsertParams.t)
    (s s' : Store.t) (e : NutritionEntry.t) :
  Schema.wf s ->
  Db.insertEntry env params s = (Return e, s') ->
  Db.deleteEntry (NutritionEntry.id e) s' = (Return true, s).
Proof.
  intros W H. apply insertEntry_returns in H. cbv zeta in H.
  destruct H as (-> & -> & Hfresh). cbn [NutritionEntry.id NutritionEntry.ofRow].
  assert (Hown : Forall (fun i => NutritionItem.entry_id i
                                  = EntryRow.id (EntryRow.stored (Inserted.entryRow env params)))
                        (map NutritionItem.stored
                           (Inserted.itemRows (Env.randomUUID env)
                              (EntryRow.id (Inserted.entryRow env params)) 1
                              (Db.InsertParams.items params)))).
  { apply Forall_map. apply itemRows_owner. }
  change (EntryRow.id (Inserted.entryRow env params))
    with (EntryRow.id (EntryRow.stored (Inserted.entryRow env params))) in Hfresh |- * at 1.
  generalize dependent (map NutritionItem.stored
                          (Inserted.itemRows (Env.randomUUID env)
                             (EntryRow.id (Inserted.entryRow env params)) 1
                             (Db.InsertParams.items params))).
  generalize dependent (EntryRow.stored (Inserted.entryRow env params)).
  intros row Hfresh rows Hown.
  unfold Db.deleteEntry. cbn [Store.entries Store.items Store.goals].
  assert (Hdel : filter (fun e0 => EntryRow.id e0 =? EntryRow.id row)
                        (Store.entries s ++ [row]) = [row]).
  { rewrite filter_app. simpl. rewrite String.eqb_refl.
    rewrite Ledger.filter_none; [reflexivity|].
    intros r Hr. apply String.eqb_neq. intros E. apply Hfresh.
    rewrite <- E. now apply in_map. }
  rewrite Hdel. simpl List.length. simpl Nat.ltb. f_equal.
  transitivity (Store.mk (Store.entries s) (Store.items s) (Store.goals s));
    [|apply DeleteFacts.store_eta]. f_equal.
  - rewrite filter_app. simpl. rewrite String.eqb_refl. simpl. rewrite app_nil_r.
    apply Ledger.filter_all. apply Forall_forall. intros r Hr.
    apply negb_true_iff, String.eqb_neq. intros E. apply Hfresh.
    rewrite <- E. now apply in_map.
  - rewrite filter_app.
    rewrite (Ledger.filter_none _ rows), app_nil_r.
    + apply Ledger.filter_all. apply Forall_forall. intros i Hi. simpl.
      rewrite orb_false_r. apply negb_true_iff, String.eqb_neq. intros E.
      apply Hfresh. rewrite E. now apply (Schema.items_fk s W).
    + intros i Hi. rewrite Forall_forall in Hown. rewrite (Hown i Hi). simpl.
      now rewrite String.eqb_refl.
Qed.

Lemma insertEntry_then_deleteEntry_witness :
  Db.deleteEntry "a0" Sample.afterBreakfast = (Return true, Store.empty).
Proof.
  exact (insertEntry_then_deleteEntry (Sample.env "a" "2026-01-15T08:00:00.000Z")
           Sample.breakfast Store.empty Sample.afterBreakfast
           (NutritionEntry.ofRow Sample.breakfastRow Sample.breakfastItems)
           Ledger.wf_empty eq_refl).
Defined.

(** X4. Frame of deleteEntry: every other identifier reads as before. *)
Theorem deleteEntry_frame (s : Store.t) (id other : string) :
  other <> id ->
  Db.getEntry (snd (Db.deleteEntry id s)) other = Db.getEntry s other.
Proof.
  intros Hne. unfold Db.deleteEntry, Db.getEntry, Db.itemsOf.
  cbn [snd Store.entries Store.items].
  assert (Hfind : find (fun e => EntryRow.id e =? other)
                    (filter (fun e => negb (EntryRow.id e =? id)) (Store.entries s))
                  = find (fun e => EntryRow.id e =? other) (Store.entries s)).
  { induction (Store.entries s) as [|r l IH]; simpl; [reflexivity|].
    destruct (EntryRow.id r =? id) eqn:E; simpl.
    - apply String.eqb_eq in E.
      assert (E' : (EntryRow.id r =? other) = false)
        by (apply String.eqb_neq; congruence).
      now rewrite E'.
    - now destruct (EntryRow.id r =? other). }
  rewrite Hfind. destruct (find _ (Store.entries s)); [|reflexivity].
  f_equal. f_equal.
  induction (Store.items s) as [|i l IH]; simpl; [reflexivity|].
  destruct (existsb _ _) eqn:Ex; simpl.
  - apply DeleteFacts.cascade in Ex. destruct Ex as [_ Ex].
    assert (E' : (NutritionItem.entry_id i =? other) = false)
      by (apply String.eqb_neq; congruence).
    now rewrite E'.
  - destruct (NutritionItem.entry_id i =? other); [now rewrite IH|exact IH].
Qed.

Lemma deleteEntry_frame_witness :
  Db.getEntry (snd (Db.deleteEntry "b0" Sample.afterBreakfast)) "a0"
  = Db.getEntry Sample.afterBreakfast "a0".
Proof.
  apply (deleteEntry_frame Sample.afterBreakfast "b0" "a0"). discriminate.
Defined.

(** X5. Deleting twice: the second deleteEntry of the same identifier
    answers [false] and changes nothing. *)
Theorem deleteEntry_twice (s : Store.t) (id : string) :
  let once := snd (Db.deleteEntry id s) in
  Db.deleteEntry id once = (Return false, once).
Proof. intros once. apply deleteEntry_absent, deleteEntry_gone. Qed.

End StoreFacts.

(** ** How the methods compose *)

Module Composition.
Import InsertFacts.

Lemma inserted_rows_keep_items (s : Store.t) (row : EntryRow.t)
    (rows : list NutritionItem.t) (r : EntryRow.t) :
  ~ In (EntryRow.id row) (map EntryRow.id (Store.entries s)) ->
  Forall (fun i => NutritionItem.entry_id i = EntryRow.id row) rows ->
  In r (Store.entries s) ->
  Db.itemsOf (Store.mk (Store.entries s ++ [EntryRow.stored row])
                       (Store.items s ++ map NutritionItem.stored rows) (Store.goals s))
             (EntryRow.id r)
  = Db.itemsOf s (EntryRow.id r).
Proof.
  intros Hfresh Hown Hr. unfold Db.itemsOf. cbn [Store.items].
  rewrite filter_app, (Ledger.filter_none _ (map NutritionItem.stored rows)), app_nil_r;
    [reflexivity|].
  intros i Hi. apply in_map_iff in Hi. destruct Hi as (j & <- & Hj).
  rewrite Forall_forall in Hown. cbn [NutritionItem.entry_id NutritionItem.stored].
  rewrite (Hown j Hj).
  apply String.eqb_neq. intros E. apply Hfresh. rewrite E. now apply in_map.
Qed.

(** X6. insertEntry and the range reads: in a store that respects the
    schema, once insertEntry has returned an entry, every range read
    returns what it returned before plus, when the entry's date is in
    the range, that entry as the REAL columns hold it (a negative zero
    read back as zero); so the entry count of the daily summary goes
    up by one for the entry's date and stays put for any other date. *)
Theorem insertEntry_extends_ranges (env : Env.t) (params : Db.InsertParams.t)
    (s s' : Store.t) (e : NutritionEntry.t) :
  Schema.wf s ->
  Db.insertEntry env params s = (Return e, s') ->
  (forall from to,
     Permutation (Db.getEntriesByDateRange s' from to)
       (Db.getEntriesByDateRange s from to
        ++ (if String.leb from (NutritionEntry.date e)
               && String.leb (NutritionEntry.date e) to
            then [NutritionEntry.stored e] else [])))
  /\ (forall date,
        DailySummary.entry_count (Db.getDailySummary s' date)
        = (DailySummary.entry_count (Db.getDailySummary s date)
           + (if (NutritionEntry.date e =? date)%string then 1 else 0))%nat).
Proof.
  intros W H. apply insertEntry_returns in H. cbv zeta in H.
  destruct H as (-> & -> & Hfresh).
  pose proof (itemRows_owner (Env.randomUUID env)
                (EntryRow.id (Inserted.entryRow env params))
                (Db.InsertParams.items params) 1) as Hown.
  generalize dependent (Inserted.itemRows (Env.randomUUID env)
                          (EntryRow.id (Inserted.entryRow env params)) 1
                          (Db.InsertParams.items params)).
  generalize dependent (Inserted.entryRow env params).
  intros row Hfresh rows Hown.
  set (s' := Store.mk (Store.entries s ++ [EntryRow.stored row])
                      (Store.items s ++ map NutritionItem.stored rows) (Store.goals s)).
  assert (Hrange : forall from to,
            Permutation (Db.getEntriesByDateRange s' from to)
              (Db.getEntriesByDateRange s from to
               ++ (if Db.inRange from to row
                   then [NutritionEntry.stored (NutritionEntry.ofRow row rows)]
                   else []))).
  { intros from to.
    rewrite (RangeFacts.range_perm s' from to), (RangeFacts.range_perm s from to).
    cbn [Store.entries s']. rewrite filter_app, map_app. apply Permutation_app.
    - apply Permutation_refl'. apply map_ext_in. intros r Hr.
      apply filter_In in Hr. destruct Hr as [Hr _]. f_equal.
      now apply inserted_rows_keep_items.
    - cbn [filter]. change (Db.inRange from to (EntryRow.stored row))
        with (Db.inRange from to row).
      destruct (Db.inRange from to row); cbn [map]; [|reflexivity].
      change (EntryRow.id (EntryRow.stored row)) with (EntryRow.id row).
      unfold s'. now rewrite Ledger.itemsOf_inserted. }
  split.
  - intros from to. exact (Hrange from to).
  - intros date. unfold Db.getDailySummary. cbn [DailySummary.entry_count].
    rewrite (Permutation_length (Hrange date date)), length_app. f_equal.
    cbn [NutritionEntry.date NutritionEntry.ofRow]. unfold Db.inRange.
    destruct (EntryRow.date row =? date) eqn:E.
    + apply String.eqb_eq in E.
      now rewrite (proj2 (StringOrder.between_same date (EntryRow.date row)) E).
    + destruct (String.leb date (EntryRow.date row)
                && String.leb (EntryRow.date row) date) eqn:B; [|reflexivity].
      apply StringOrder.between_same in B. apply String.eqb_neq in E. contradiction.
Qed.

Lemma insertEntry_extends_ranges_witness :
  (forall from to,
     Permutation (Db.getEntriesByDateRange Sample.afterBreakfast from to)
       (Db.getEntriesByDateRange Store.empty from to
        ++ (if String.leb from "2026-01-15" && String.leb "2026-01-15" to
            then [NutritionEntry.stored
                    (NutritionEntry.ofRow Sample.breakfastRow Sample.breakfastItems)]
            else [])))
  /\ (forall date,
        DailySummary.entry_count (Db.getDailySummary Sample.afterBreakfast date)
        = (DailySummary.entry_count (Db.getDailySummary Store.empty date)
           + (if ("2026-01-15" =? date)%string then 1 else 0))%nat).
Proof.
  exact (insertEntry_extends_ranges (Sample.env "a" "2026-01-15T08:00:00.000Z")
           Sample.breakfast Store.empty Sample.afterBreakfast
           (NutritionEntry.ofRow Sample.breakfastRow Sample.breakfastItems)
           Ledger.wf_empty eq_refl).
Defined.

(** X17. A range whose upper bound sorts before its lower bound is
    empty, whatever the store holds. *)
Theorem getEntriesByDateRange_inverted (s : Store.t) (from to : string) :
  String.ltb to from = true -> Db.getEntriesByDateRange s from to = [].
Proof.
  intros Hlt. apply RangeFacts.range_none. intros row _.
  apply not_true_iff_false. intros H. apply andb_true_iff in H. destruct H as [H1 H2].
  pose proof (StringOrder.leb_trans _ _ _ H1 H2) as Hle.
  apply RangeFacts.ltb_not_leb in Hlt. congruence.
Qed.

Lemma getEntriesByDateRange_inverted_witness :
  Db.getEntriesByDateRange RangeSample.threeDays "2026-01-16" "2026-01-14" = [].
Proof.
  apply (getEntriesByDateRange_inverted RangeSample.threeDays "2026-01-16" "2026-01-14").
  reflexivity.
Defined.

End Composition.

(** ** Every reachable store respects the schema *)

Module Reachability.
Import Reach.

Lemma reachable_schema (s : Store.t) : reachable s -> Schema.wf s.
Proof.
  induction 1 as [|env params s _ IH|id s _ IH|env params s _ IH].
  - apply Ledger.wf_empty.
  - now apply InsertInvariant.insertEntry_keeps_wf.
  - now apply DeleteFacts.deleteEntry_keeps_wf.
  - now apply GoalsFacts.updateGoals_keeps_wf.
Qed.

Lemma insertEntry_goals (env : Env.t) (params : Db.InsertParams.t) (s : Store.t) :
  Store.goals (snd (Db.insertEntry env params s)) = Store.goals s.
Proof.
  destruct (Db.insertEntry env params s) as [[e|x] s'] eqn:E; cbn [snd].
  - apply InsertFacts.insertEntry_returns in E. cbv zeta in E.
    now destruct E as (_ & -> & _).
  - apply InsertFacts.insertEntry_throws in E. now subst.
Qed.

Lemma reachable_goals_key (s : Store.t) :
  reachable s -> Forall (fun g => Goals.id g = "default") (Store.goals s).
Proof.
  induction 1 as [|env params s _ IH|id s _ IH|env params s _ IH].
  - constructor.
  - now rewrite insertEntry_goals.
  - exact IH.
  - rewrite GoalsFacts.updateGoals_unfold. unfold bind.
    destruct (Db.upsertGoalsStmt_run _ s) as [[u|x] s1] eqn:E; cbn [snd ret].
    + apply GoalsFacts.upsertGoals_returns in E.
      destruct E as (_ & _ & _ & _ & _ & Hrows).
      apply Forall_forall. intros r Hr. apply Hrows in Hr.
      destruct Hr as [->|Hr]; [reflexivity|].
      rewrite Forall_forall in IH. now apply IH.
    + apply GoalsFacts.upsertGoals_throws in E. now destruct E as (-> & _).
Qed.

(** X7. Whatever sequence of insertEntry, deleteEntry and updateGoals
    calls produced it, returning or throwing, a store has no two entry
    rows and no two item rows with the same identifier, no item row
    whose [entry_id] names no entry row, and no NaN in a macro column. *)
Theorem reachable_respects_schema (s : Store.t) :
  reachable s ->
  NoDup (map EntryRow.id (Store.entries s))
  /\ NoDup (map NutritionItem.id (Store.items s))
  /\ (forall i, In i (Store.items s) ->
        exists e, In e (Store.entries s) /\ EntryRow.id e = NutritionItem.entry_id i)
  /\ (forall e, In e (Store.entries s) ->
        Forall (fun x => Js.isNaN x = false) (Schema.entryReals e))
  /\ (forall i, In i (Store.items s) ->
        Forall (fun x => Js.isNaN x = false) (Schema.itemReals i))
  /\ (forall g, In g (Store.goals s) ->
        Forall (fun x => Js.isNaN x = false) (Schema.goalsReals g)).
Proof.
  intros H. apply reachable_schema in H. destruct H as [W1 W2 W3 W4 W5 W6 W7].
  assert (Hnan : forall xs, Db.anyNaN xs = false -> Forall (fun x => Js.isNaN x = false) xs).
  { intros xs Hxs. apply Forall_forall. intros x Hx.
    apply not_true_iff_false. intros E.
    assert (Db.anyNaN xs = true) by (apply existsb_exists; now exists x).
    congruence. }
  repeat split; auto.
  intros i Hi. apply W3 in Hi. apply in_map_iff in Hi. destruct Hi as (e & E & He).
  now exists e.
Qed.

Lemma threeDays_reachable : reachable RangeSample.threeDays.
Proof. repeat apply reach_insertEntry. apply reach_empty. Qed.

Lemma reachable_respects_schema_witness :
  NoDup (map EntryRow.id (Store.entries RangeSample.threeDays))
  /\ NoDup (map NutritionItem.id (Store.items RangeSample.threeDays))
  /\ (forall i, In i (Store.items RangeSample.threeDays) ->
        exists e, In e (Store.entries RangeSample.threeDays)
                  /\ EntryRow.id e = NutritionItem.entry_id i)
  /\ (forall e, In e (Store.entries RangeSample.threeDays) ->
        Forall (fun x => Js.isNaN x = false) (Schema.entryReals e))
  /\ (forall i, In i (Store.items RangeSample.threeDays) ->
        Forall (fun x => Js.isNaN x = false) (Schema.itemReals i))
  /\ (forall g, In g (Store.goals RangeSample.threeDays) ->
        Forall (fun x => Js.isNaN x = false) (Schema.goalsReals g)).
Proof. exact (reachable_respects_schema RangeSample.threeDays threeDays_reachable). Defined.

(** X8. The goals are a singleton: a reachable store holds at most one
    goals row, and its key is ["default"]. *)
Theorem reachable_goals_singleton (s : Store.t) :
  reachable s ->
  (List.length (Store.goals s) <= 1)%nat
  /\ Forall (fun g => Goals.id g = "default") (Store.goals s)
  /\ (Db.getGoals s = None <-> Store.goals s = []).
Proof.
  intros H. pose proof (reachable_goals_key s H) as Hkey.
  apply reachable_schema in H. destruct H as [_ _ _ W4 _ _ _].
  split; [|split; [exact Hkey|]].
  - destruct (Store.goals s) as [|a [|b l]]; simpl; try lia.
    inversion Hkey as [|? ? Ha Hl]. inversion Hl as [|? ? Hb _]. subst.
    simpl in W4. rewrite Ha, Hb in W4. inversion W4 as [|? ? Hnot _].
    elim Hnot. now left.
  - unfold Db.getGoals. destruct (Store.goals s) as [|a l]; simpl; [tauto|].
    inversion Hkey as [|? ? Ha _]. rewrite Ha. simpl. split; discriminate.
Qed.

Lemma afterFirst_reachable : reachable GoalsSample.afterFirst.
Proof.
  exact (reach_updateGoals GoalsSample.clock GoalsSample.first Store.empty reach_empty).
Qed.

Lemma reachable_goals_singleton_witness :
  (List.length (Store.goals GoalsSample.afterFirst) <= 1)%nat
  /\ Forall (fun g => Goals.id g = "default") (Store.goals GoalsSample.afterFirst)
  /\ (Db.getGoals GoalsSample.afterFirst = None <-> Store.goals GoalsSample.afterFirst = []).
Proof. exact (reachable_goals_singleton GoalsSample.afterFirst afterFirst_reachable). Defined.

End Reachability.

(** ** Goals: composition and the two write paths *)

Module GoalsComposition.
Import Reach.

Lemma updateGoals_returns (env : Env.t) (params : GoalsPartial.t)
    (s s' : Store.t) (g : Goals.t) :
  Db.updateGoals env params s = (Return g, s') ->
  g = Spec.mergedGoals env params s /\ Db.getGoals s' = Some (Goals.stored g).
Proof.
  rewrite GoalsFacts.updateGoals_unfold. unfold bind.
  destruct (Db.upsertGoalsStmt_run _ s) as [[u|x] s1] eqn:E; [|discriminate].
  unfold ret. intros H. inversion H. subst. clear H.
  apply GoalsFacts.upsertGoals_returns in E. now destruct E as (_ & Hfind & _).
Qed.

Lemma merged_over (later earlier : option Js.number) (stored : option Goals.t)
    (field : Goals.t -> Js.number) (now1 now2 : string) (g1 : Goals.t) :
  field (Spec.baseline now1) = field (Spec.baseline now2) ->
  field g1 = Spec.merged earlier stored field now1 ->
  Spec.merged later (Some g1) field now2
  = Spec.merged (Js.nullishOpt later earlier) stored field now2.
Proof. intros Hb H. destruct later, earlier, stored; simpl in *; congruence. Qed.

(** The same, with the first record read back from the table in
    between: the two sides agree once written to a REAL column. *)
Lemma merged_over_stored (later earlier : option Js.number) (old : option Goals.t)
    (field : Goals.t -> Js.number) (now1 now2 : string) (g1 : Goals.t) :
  field (Goals.stored g1) = Sqlite.real (field g1) ->
  field (Spec.baseline now1) = field (Spec.baseline now2) ->
  field g1 = Spec.merged earlier old field now1 ->
  Sqlite.real (Spec.merged later (Some (Goals.stored g1)) field now2)
  = Sqlite.real (Spec.merged (Js.nullishOpt later earlier) old field now2).
Proof.
  intros Hf Hb H. destruct later as [v|]; [reflexivity|].
  cbn [Spec.merged Js.nullishOpt]. rewrite Hf, SqliteFacts.real_idempotent, H.
  destruct earlier, old; cbn [Spec.merged]; congruence.
Qed.

(** X10. Two updates in a row are one update: when both return, the
    goals row the table holds after the second is the row it would hold
    after a single updateGoals on the original store with the two
    partials combined, the later one winning field by field; and
    getGoals reads that row. *)
Theorem updateGoals_compose (env1 env2 : Env.t) (p1 p2 : GoalsPartial.t)
    (s s1 s2 : Store.t) (g1 g2 : Goals.t) :
  Db.updateGoals env1 p1 s = (Return g1, s1) ->
  Db.updateGoals env2 p2 s1 = (Return g2, s2) ->
  Goals.stored g2 = Goals.stored (Spec.mergedGoals env2 (over p2 p1) s)
  /\ Db.getGoals s2 = Some (Goals.stored g2).
Proof.
  intros H1 H2. apply updateGoals_returns in H1, H2.
  destruct H1 as [Hg1 Hs1], H2 as [Hg2 Hs2]. split; [|exact Hs2].
  rewrite Hg2. unfold Spec.mergedGoals. rewrite Hs1. cbv zeta.
  unfold over, Goals.stored.
  cbn [GoalsPartial.calories GoalsPartial.protein GoalsPartial.carbs
       GoalsPartial.fat GoalsPartial.fiber
       Goals.id Goals.calories Goals.protein Goals.carbs Goals.fat Goals.fiber
       Goals.updated_at].
  f_equal; apply (merged_over_stored _ _ _ _ (Env.now env1));
    try reflexivity; rewrite Hg1; reflexivity.
Qed.

Lemma updateGoals_compose_witness :
  Goals.stored GoalsSample.afterSecond
  = Goals.stored
      (Spec.mergedGoals GoalsSample.later (over GoalsSample.second GoalsSample.first)
         Store.empty)
  /\ Db.getGoals (Store.mk [] [] [GoalsSample.afterSecond])
     = Some (Goals.stored GoalsSample.afterSecond).
Proof.
  exact (updateGoals_compose GoalsSample.clock GoalsSample.later
           GoalsSample.first GoalsSample.second
           Store.empty GoalsSample.afterFirst (Store.mk [] [] [GoalsSample.afterSecond])
           _ GoalsSample.afterSecond eq_refl eq_refl).
Defined.

(** A negative zero set by the first update and left alone by the second
    is read back as zero in between, so the second record carries zero
    where the combined partial carries the negative zero: the two agree
    as rows of the table, not as JS objects. *)
Example updateGoals_compose_negative_zero :
  let p1 := GoalsPartial.mk None None None (Some (-0)%float) None in
  exists s1 g1 s2 g2,
    Db.updateGoals GoalsSample.clock p1 Store.empty = (Return g1, s1)
    /\ Db.updateGoals GoalsSample.later GoalsSample.second s1 = (Return g2, s2)
    /\ Js.div 1%float (Goals.fat g2) = infinity
    /\ Js.div 1%float
         (Goals.fat (Spec.mergedGoals GoalsSample.later (over GoalsSample.second p1)
                       Store.empty))
       = neg_infinity.
Proof.
  cbv zeta. do 4 eexists. split; [reflexivity|]. split; [reflexivity|].
  split; reflexivity.
Qed.

Lemma collect_returned (params : UpdateGoalsTool.Params) (ks : list string)
    (updates updates' : UpdateGoalsTool.Updates) :
  UpdateGoalsTool.collect params ks updates = Return updates' ->
  forall k v, In k ks -> Spec.supplied params k = Some v -> Js.lt v Js.zero = false.
Proof.
  intros H k v Hk E. destruct (Js.lt v Js.zero) eqn:L; [|reflexivity].
  destruct (UpdateGoalsFacts.collect_throws params ks updates k v Hk E L)
    as (k' & v' & _ & _ & _ & Hthrow).
  congruence.
Qed.

Lemma merged_nonNegative (supplied : option Js.number) (stored : option Goals.t)
    (field : Goals.t -> Js.number) (now : string) :
  (forall v, supplied = Some v -> nonNegative v) ->
  (forall old, stored = Some old -> nonNegative (field old)) ->
  nonNegative (field (Spec.baseline now)) ->
  nonNegative (Spec.merged supplied stored field now).
Proof. intros H1 H2 H3. destruct supplied, stored; simpl; auto. Qed.

(** X11. The tool keeps the goals non-negative: if the stored goals, if
    any, are non-negative, so is every field of the record a returning
    [execute] builds, and so is every field of the goals row the table
    then holds, which is that record as the REAL columns keep it. *)
Theorem execute_keeps_goals_nonNegative (env : Env.t) (params : UpdateGoalsTool.Params)
    (s s' : Store.t) (g : Goals.t) :
  (forall old, Db.getGoals s = Some old -> goalsNonNegative old) ->
  UpdateGoalsTool.execute env params s = (Return g, s') ->
  goalsNonNegative g
  /\ (exists read, Db.getGoals s' = Some read
                   /\ read = Goals.stored g /\ goalsNonNegative read).
Proof.
  intros Hold H. unfold UpdateGoalsTool.execute in H.
  destruct (UpdateGoalsTool.collect params UpdateGoalsTool.keys []) as [updates|x] eqn:E;
    [|discriminate].
  pose proof (collect_returned _ _ _ _ E) as Hpos.
  pose proof (UpdateGoalsFacts.collect_returns params UpdateGoalsTool.keys [] Hpos) as E'.
  destruct (UpdateGoalsFacts.collected_asPartial params) as [Hpartial _].
  cbv zeta in Hpartial.
  match type of E' with _ = Return ?t => remember t as collected eqn:Hc end.
  assert (Hu : updates = collected) by congruence. subst updates. clear E E' Hc.
  destruct (List.length _ =? 0)%nat; [discriminate|].
  rewrite Hpartial in H. apply updateGoals_returns in H.
  destruct H as [-> Hget].
  match goal with |- ?P /\ _ => assert (Hg : P) end;
    [|split; [exact Hg|]; eexists; split; [exact Hget|]; split; [reflexivity|];
      unfold goalsNonNegative in *; destruct Hg as (G1 & G2 & G3 & G4 & G5);
      cbn [Goals.stored Goals.calories Goals.protein Goals.carbs Goals.fat Goals.fiber];
      repeat split; now apply SqliteFacts.real_not_negative].
  unfold goalsNonNegative, Spec.mergedGoals.
  cbn [Goals.calories Goals.protein Goals.carbs Goals.fat Goals.fiber
       GoalsPartial.calories GoalsPartial.protein GoalsPartial.carbs
       GoalsPartial.fat GoalsPartial.fiber].
  repeat split; apply merged_nonNegative;
    try reflexivity;
    try (intros old Eold; now apply Hold in Eold; unfold goalsNonNegative in Eold);
    intros v Ev; unfold nonNegative; (eapply Hpos; [|exact Ev]);
    unfold UpdateGoalsTool.keys; simpl; tauto.
Qed.

Lemma execute_keeps_goals_nonNegative_witness :
  goalsNonNegative
    (Goals.mk "default" 2500%float 180%float 250%float 70%float 30%float
       "2026-01-16T10:00:00.000Z")
  /\ (exists read,
        Db.getGoals
          (Store.mk [] []
             [Goals.mk "default" 2500%float 180%float 250%float 70%float 30%float
                "2026-01-16T10:00:00.000Z"]) = Some read
        /\ read = Goals.stored
                    (Goals.mk "default" 2500%float 180%float 250%float 70%float 30%float
                       "2026-01-16T10:00:00.000Z")
        /\ goalsNonNegative read).
Proof.
  apply (execute_keeps_goals_nonNegative GoalsSample.later GoalsSample.onlyFat
           GoalsSample.afterFirst).
  - intros old H. vm_compute in H. inversion H. subst old. repeat split.
  - reflexivity.
Defined.

End GoalsComposition.

(** ** Deleting through the tool and through HTTP *)

Module DeletePaths.

(** X12. delete_nutrition_entry has three outcomes and no fourth: it
    throws "entry_id required" when the trimmed identifier is empty (or
    not a string), throws "Entry not found" when getEntry finds
    nothing, both without touching the store; otherwise it deletes,
    returns the entry as it was read before the deletion, and getEntry
    finds nothing afterwards.  "Failed to delete entry" is never
    thrown. *)
Theorem deleteEntryTool_outcomes (trim : string -> string)
    (params : DeleteEntryTool.Params) (s : Store.t) :
  let entryId := DeleteEntryTool.entryIdOf trim params in
  match DeleteEntryTool.execute trim params s with
  | (Throw e, s') =>
      s' = s
      /\ ((entryId = "" /\ e = Error "entry_id required")
          \/ (entryId <> "" /\ Db.getEntry s entryId = None
              /\ e = Error ("Entry not found: " ++ entryId)))
  | (Return details, s') =>
      entryId <> ""
      /\ Db.getEntry s entryId = Some (DeleteEntryTool.Details.entry details)
      /\ DeleteEntryTool.Details.deleted details = true
      /\ s' = snd (Db.deleteEntry entryId s)
      /\ Db.getEntry s' entryId = None
  end.
Proof.
  intros entryId. unfold DeleteEntryTool.execute. fold entryId.
  destruct (entryId =? "") eqn:E.
  - apply String.eqb_eq in E. split; [reflexivity|]. now left.
  - apply String.eqb_neq in E.
    destruct (Db.getEntry s entryId) as [entry|] eqn:G.
    + assert (Hin : In entryId (map EntryRow.id (Store.entries s))).
      { destruct (in_dec string_dec entryId (map EntryRow.id (Store.entries s)))
          as [Hin|Hnot]; [assumption|].
        apply StoreFacts.getEntry_none_iff in Hnot. congruence. }
      unfold bind.
      pose proof (StoreFacts.deleteEntry_present s entryId Hin) as Hd.
      pose proof (StoreFacts.deleteEntry_gone s entryId) as Hgone.
      destruct (Db.deleteEntry entryId s) as [[b|x] s'] eqn:D; cbn [fst snd] in *;
        [|discriminate].
      injection Hd as ->. cbn [negb ret DeleteEntryTool.Details.entry
                               DeleteEntryTool.Details.deleted].
      repeat split; try assumption. now apply StoreFacts.getEntry_none_iff.
    + split; [reflexivity|]. right. now repeat split.
Qed.

(** The tool on [{ entry_id: " a0 " }], and on parameters without [entry_id]. *)
Example deleteEntryTool_examples :
  DeleteEntryTool.execute ToolSample.trimSpaces ToolSample.deleteBreakfast
                          Sample.afterBreakfast
  = (Return (DeleteEntryTool.Details.mk true
               (NutritionEntry.ofRow Sample.breakfastRow Sample.breakfastItems)),
     Store.empty)
  /\ DeleteEntryTool.execute ToolSample.trimSpaces (fun _ => Js.Undefined)
                             Sample.afterBreakfast
     = (Throw (Error "entry_id required"), Sample.afterBreakfast)
  /\ DeleteEntryTool.execute ToolSample.trimSpaces ToolSample.deleteBreakfast Store.empty
     = (Throw (Error "Entry not found: a0"), Store.empty).
Proof. repeat split. Qed.

(** X13. DELETE /macro-tracker/api/entries/:id answers 400 for an empty
    identifier and 404 for one getEntry does not find, both without
    touching the store; otherwise 200 with the entry as it was read
    before the deletion, after which getEntry finds nothing.  It never
    answers 500. *)
Theorem handleDeleteEntry_outcomes (entryId : string) (s : Store.t) :
  exists response : Api.Response.t,
    fst (Api.handleDeleteEntry entryId s) = Return response
    /\ let s' := snd (Api.handleDeleteEntry entryId s) in
       (entryId = "" /\ response = Api.errorResponse 400 "Entry ID required" /\ s' = s)
       \/ (entryId <> "" /\ Db.getEntry s entryId = None
           /\ response = Api.errorResponse 404 "Entry not found" /\ s' = s)
       \/ (entryId <> ""
           /\ (exists entry, Db.getEntry s entryId = Some entry
                             /\ response = Api.Response.mk 200 (Api.DeletedBody entry))
           /\ s' = snd (Db.deleteEntry entryId s)
           /\ Db.getEntry s' entryId = None).
Proof.
  unfold Api.handleDeleteEntry.
  destruct (entryId =? "") eqn:E.
  - apply String.eqb_eq in E. eexists. split; [reflexivity|]. left. now repeat split.
  - apply String.eqb_neq in E.
    destruct (Db.getEntry s entryId) as [entry|] eqn:G.
    + pose proof (StoreFacts.deleteEntry_gone s entryId) as Hgone.
      assert (Hd : exists b, fst (Db.deleteEntry entryId s) = Return b)
        by (now eexists).
      destruct Hd as [b Hd].
      destruct (Db.deleteEntry entryId s) as [[b'|x] s'] eqn:D; cbn [fst snd] in *;
        [|discriminate].
      eexists. split; [reflexivity|]. right. right.
      split; [assumption|]. split; [now exists entry|]. split; [reflexivity|].
      now apply StoreFacts.getEntry_none_iff.
    + eexists. split; [reflexivity|]. right. left. now repeat split.
Qed.

End DeletePaths.

(** ** PUT /macro-tracker/api/goals *)

Module HttpGoals.

Lemma api_collect_fold (parsed : string -> Js.value) (ks : list string) :
  forall updates,
  Api.collect parsed ks updates
  = fold_left (fun u k => match Spec.supplied parsed k with
                          | Some v => UpdateGoalsTool.set u k v
                          | None => u
                          end) ks updates.
Proof.
  induction ks as [|key ks IH]; intros updates; simpl; [reflexivity|].
  fold (Spec.supplied parsed key). destruct (Spec.supplied parsed key); apply IH.
Qed.

Lemma supplied_not_NaN (parsed : string -> Js.value) (k : string) (v : Js.number) :
  Spec.supplied parsed k = Some v -> Js.isNaN v = false.
Proof.
  unfold Spec.supplied, Js.isFiniteNumber. destruct (parsed k); try discriminate.
  destruct (Js.isFinite n) eqn:F; [|discriminate]. intros H. inversion H. subst.
  unfold Js.isFinite in F. apply andb_true_iff in F. destruct F as [F _].
  now apply negb_true_iff in F.
Qed.

Lemma merged_not_NaN (supplied : option Js.number) (stored : option Goals.t)
    (field : Goals.t -> Js.number) (now : string) :
  (forall v, supplied = Some v -> Js.isNaN v = false) ->
  (forall old, stored = Some old -> Js.isNaN (field old) = false) ->
  Js.isNaN (field (Spec.baseline now)) = false ->
  Js.isNaN (Spec.merged supplied stored field now) = false.
Proof. intros H1 H2 H3. destruct supplied, stored; simpl; auto. Qed.

(** updateGoals returns when no supplied value is NaN and the store
    respects the schema. *)
Lemma updateGoals_succeeds (env : Env.t) (params : GoalsPartial.t) (s : Store.t) :
  Schema.wf s ->
  (forall v, GoalsPartial.calories params = Some v -> Js.isNaN v = false) ->
  (forall v, GoalsPartial.protein params = Some v -> Js.isNaN v = false) ->
  (forall v, GoalsPartial.carbs params = Some v -> Js.isNaN v = false) ->
  (forall v, GoalsPartial.fat params = Some v -> Js.isNaN v = false) ->
  (forall v, GoalsPartial.fiber params = Some v -> Js.isNaN v = false) ->
  exists s', Db.updateGoals env params s = (Return (Spec.mergedGoals env params s), s').
Proof.
  intros W H1 H2 H3 H4 H5.
  assert (Hold : forall old, Db.getGoals s = Some old ->
                   Db.anyNaN (Schema.goalsReals old) = false).
  { intros old Hg. apply find_some in Hg. now apply (Schema.goals_real s W). }
  assert (Hreal : Db.anyNaN (Schema.goalsReals (Spec.mergedGoals env params s)) = false).
  { unfold Db.anyNaN, Schema.goalsReals, Spec.mergedGoals.
    cbn [existsb Goals.calories Goals.protein Goals.carbs Goals.fat Goals.fiber].
    rewrite !merged_not_NaN; try reflexivity; try assumption;
      intros old Hg; apply Hold in Hg;
      unfold Db.anyNaN, Schema.goalsReals in Hg; cbn [existsb] in Hg;
      repeat (apply orb_false_iff in Hg; destruct Hg as [? Hg]); assumption. }
  rewrite GoalsFacts.updateGoals_unfold. unfold bind, Db.upsertGoalsStmt_run.
  unfold Schema.goalsReals in Hreal. rewrite Hreal.
  destruct (existsb _ (Store.goals s)); unfold ret; eauto.
Qed.

(** X14. The HTTP path has no sign check.  On a store that respects the
    schema, a JSON object none of whose five fields is a finite number
    is answered 400 and changes nothing; any other object is answered
    200 with the record updateGoals builds from the finite fields,
    negative ones included.  It is never answered 500. *)
Theorem handleUpdateGoals_unguarded (env : Env.t) (properties : string -> Js.value)
    (s : Store.t) :
  Schema.wf s ->
  let partial :=
    GoalsPartial.mk (Spec.supplied properties "calories")
      (Spec.supplied properties "protein") (Spec.supplied properties "carbs")
      (Spec.supplied properties "fat") (Spec.supplied properties "fiber") in
  ((forall k, In k UpdateGoalsTool.keys -> Spec.supplied properties k = None) ->
   Api.handleUpdateGoals env (Api.JsonObject properties) s
   = (Return (Api.errorResponse 400 "At least one goal value must be provided"), s))
  /\ ((exists k, In k UpdateGoalsTool.keys /\ Spec.supplied properties k <> None) ->
      Api.handleUpdateGoals env (Api.JsonObject properties) s
      = (Return (Api.Response.mk 200 (Api.GoalsBody (Spec.mergedGoals env partial s))),
         snd (Db.updateGoals env partial s))
      /\ fst (Db.updateGoals env partial s)
         = Return (Spec.mergedGoals env partial s)).
Proof.
  intros W partial.
  destruct (UpdateGoalsFacts.collected_asPartial properties) as [Hpartial Hlen].
  cbv zeta in Hpartial, Hlen.
  unfold Api.handleUpdateGoals. rewrite api_collect_fold.
  destruct (updateGoals_succeeds env partial s W) as [s' Hs'];
    try (intros v; apply supplied_not_NaN).
  split.
  - intros Hnone. apply Hlen in Hnone. now rewrite Hnone.
  - intros (k & Hk & Hsome).
    destruct (List.length _ =? 0)%nat eqn:El.
    + elim Hsome. exact (proj1 Hlen eq_refl k Hk).
    + rewrite Hpartial. fold partial. rewrite Hs'. split; reflexivity.
Qed.

(** [PUT { "calories": -100 }] after the first update: 200, and the
    goal is negative; the tool refuses the same value. *)
Lemma handleUpdateGoals_unguarded_witness :
  Api.handleUpdateGoals GoalsSample.later (Api.JsonObject ToolSample.negativeCalories)
                        GoalsSample.afterFirst
  = (Return (Api.Response.mk 200
               (Api.GoalsBody
                  (Goals.mk "default" (-100)%float 180%float 250%float 65%float
                     30%float "2026-01-16T10:00:00.000Z"))),
     Store.mk [] []
       [Goals.mk "default" (-100)%float 180%float 250%float 65%float 30%float
          "2026-01-16T10:00:00.000Z"])
  /\ fst (UpdateGoalsTool.execute GoalsSample.later ToolSample.negativeCalories
            GoalsSample.afterFirst)
     = Throw (Error "calories must be non-negative").
Proof.
  split; [|reflexivity].
  assert (W : Schema.wf GoalsSample.afterFirst).
  { apply Reachability.reachable_schema, Reachability.afterFirst_reachable. }
  destruct (handleUpdateGoals_unguarded GoalsSample.later ToolSample.negativeCalories
              GoalsSample.afterFirst W) as [_ H].
  destruct H as [H _].
  - exists "calories". split; [now left|discriminate].
  - exact H.
Defined.

End HttpGoals.

(** ** The days of the range summary: counts and order *)

Module RangeDays.
Import GetSummaryTool Grouping.

Lemma list_sum_perm (l1 l2 : list nat) :
  Permutation l1 l2 -> list_sum l1 = list_sum l2.
Proof. induction 1; simpl; lia. Qed.

(** Among distinct keys, exactly one is the date of a given entry. *)
Lemma one_key_matches (d : string) (ks : list string) :
  NoDup ks -> In d ks ->
  list_sum (map (fun k => if d =? k then 1 else 0) ks) = 1.
Proof.
  induction ks as [|k ks IH]; intros Hnd Hin; [destruct Hin|].
  apply NoDup_cons_iff in Hnd. destruct Hnd as [Hk Hnd]. simpl.
  destruct (d =? k) eqn:E.
  - apply String.eqb_eq in E. subst k. f_equal.
    clear IH Hin Hnd. induction ks as [|k ks IH]; simpl; [reflexivity|].
    destruct (d =? k) eqn:E.
    + apply String.eqb_eq in E. subst. elim Hk. now left.
    + apply IH. intros H. apply Hk. now right.
  - destruct Hin as [->|Hin]; [now rewrite String.eqb_refl in E|]. now apply IH.
Qed.

(** The groups of distinct keys that cover the dates share out the
    entries: their sizes add up to the number of entries. *)
Lemma groups_cover (ks : list string) (es : list NutritionEntry.t) :
  NoDup ks -> (forall e, In e es -> In (NutritionEntry.date e) ks) ->
  list_sum (map (fun k => List.length (group es k)) ks) = List.length es.
Proof.
  intros Hnd. induction es as [|e es IH]; intros Hcover.
  - simpl. induction ks as [|k ks IHk]; simpl; [reflexivity|].
    apply NoDup_cons_iff in Hnd. now apply IHk.
  - assert (Hsplit : list_sum (map (fun k => List.length (group (e :: es) k)) ks)
                     = (list_sum (map (fun k => if (NutritionEntry.date e =? k)%string
                                                then 1 else 0) ks)
                        + list_sum (map (fun k => List.length (group es k)) ks))%nat).
    { clear. induction ks as [|k ks IHk]; [reflexivity|].
      rewrite !map_cons. unfold list_sum in *. cbn [fold_right]. rewrite IHk.
      unfold group at 1. cbn [filter]. fold (group es k).
      destruct (NutritionEntry.date e =? k); simpl; lia. }
    rewrite Hsplit, IH by (intros x Hx; apply Hcover; now right).
    rewrite (one_key_matches (NutritionEntry.date e) ks Hnd)
      by (apply Hcover; now left).
    reflexivity.
Qed.

(** X15. With plain dates, the day counts of a range summary add up to
    the number of entries in the range: the "Total entries: N across D
    day(s)" line counts every entry in exactly one day. *)
Theorem rangeSummary_counts (localeCompare : string -> string -> Z)
    (s : Store.t) (from to : string) :
  plainDates (Db.getEntriesByDateRange s from to) ->
  list_sum (map Day.count (Details.days (rangeSummary localeCompare s from to)))
  = List.length (Db.getEntriesByDateRange s from to).
Proof.
  intros Hplain.
  pose proof (RangeSummaryFacts.loop_grouped _ Hplain) as [Hnd Hkeys Htot].
  unfold rangeSummary. cbn [Details.days].
  set (entries := Db.getEntriesByDateRange s from to) in *.
  set (byDate := fold_left accumulate entries []) in *.
  rewrite map_map.
  rewrite (list_sum_perm _ (map (fun kv => Day.count (Day.ofEntry kv)) byDate))
    by (apply Permutation_map, RangeSummaryFacts.sortedEntries_perm).
  rewrite <- (groups_cover (map fst byDate) entries Hnd).
  - rewrite map_map. f_equal. apply map_ext_in. intros kv Hkv.
    cbn [Day.count Day.ofEntry]. rewrite (Htot kv Hkv).
    pose proof (RangeSummaryFacts.fold_add_fields (group entries (fst kv)) Totals.zero)
      as Hf.
    cbv zeta in Hf. now destruct Hf as (_ & _ & _ & _ & _ & ->).
  - intros e He. apply Hkeys. now apply in_map.
Qed.

Lemma rangeSummary_counts_witness :
  list_sum (map Day.count
              (Details.days (rangeSummary Collation.byteCompare RangeSample.threeDays
                               "2026-01-14" "2026-01-16")))
  = 3.
Proof.
  apply (rangeSummary_counts Collation.byteCompare RangeSample.threeDays
           "2026-01-14" "2026-01-16").
  vm_compute. repeat constructor.
Defined.

Lemma byteCompare_le (a b : string) :
  (Collation.byteCompare a b <=? 0)%Z = String.leb a b.
Proof.
  unfold Collation.byteCompare, String.leb. now destruct (String.compare a b).
Qed.

(** X16. The days come out in the order of [localeCompare]: if the
    collation is total and transitive, each day sorts no later than
    every day after it. *)
Theorem rangeSummary_days_sorted (localeCompare : string -> string -> Z)
    (s : Store.t) (from to : string) :
  (forall a b, (localeCompare a b <=? 0)%Z = false -> (localeCompare b a <=? 0)%Z = true) ->
  (forall a b c, (localeCompare a b <=? 0)%Z = true -> (localeCompare b c <=? 0)%Z = true ->
                 (localeCompare a c <=? 0)%Z = true) ->
  StronglySorted (fun x y => (localeCompare (Day.date x) (Day.date y) <=? 0)%Z = true)
                 (Details.days (rangeSummary localeCompare s from to)).
Proof.
  intros Htotal Htrans. unfold rangeSummary. cbn [Details.days].
  apply RangeFacts.StronglySorted_map. cbn [Day.date Day.ofEntry].
  unfold sortedEntries.
  apply (SortingFacts.sortBy_strongly_sorted
           (fun x y : string * Totals.t => (localeCompare (fst x) (fst y) <=? 0)%Z)).
  - intros x y. apply Htotal.
  - intros x y z. apply Htrans.
Qed.

Lemma rangeSummary_days_sorted_witness :
  StronglySorted
    (fun x y => (Collation.byteCompare (Day.date x) (Day.date y) <=? 0)%Z = true)
    (Details.days (rangeSummary Collation.byteCompare RangeSample.threeDays
                     "2026-01-14" "2026-01-16")).
Proof.
  apply (rangeSummary_days_sorted Collation.byteCompare).
  - intros a b. rewrite !byteCompare_le. apply StringOrder.leb_false.
  - intros a b c. rewrite !byteCompare_le. apply StringOrder.leb_trans.
Defined.

End RangeDays.
